(** * The Vizier trial loop of the PatchCamelyon notebooks

    A shallow embedding of the hyperparameter-tuning cells of
    [04_vizier_pcam_model_training.ipynb]: the evaluation functions
    [run_model_training] and [CreateMetrics], and the cell that runs the
    trials.  The Vizier client and the Keras training run are external
    collaborators; they are operations on an abstract world.  The driver is
    written in a state-and-exception monad whose state holds the world, the
    notebook's global variables and a trace of the calls made. *)

From Stdlib Require Import ZArith QArith List String Ascii Bool Lia.
From Stdlib Require Import DecimalString DecimalNat.
Import ListNotations.

Local Open Scope string_scope.
Local Open Scope list_scope.
Local Open Scope Z_scope.

(** ** Python values and exceptions *)

Inductive exn : Type :=
| ValueError
| TypeError
| OverflowError
| IndexError
| NameError (var : string)
| KeyError (key : string)
| ExternalError (what : string).

Inductive result (A : Type) : Type :=
| Ok (a : A)
| Raise (e : exn).

Arguments Ok {A} a.
Arguments Raise {A} e.

(** The values that reach the driver's variables: Python ints, bools,
    strings, [None], and floats.  A finite float is represented by its exact
    rational value. *)
Inductive pyvalue : Type :=
| PyInt (z : Z)
| PyBool (b : bool)
| PyFloat (q : Q)
| PyNaN
| PyInf (negative : bool)
| PyStr (s : string)
| PyNone.

(** *** [int(str)] on ASCII text *)

Definition is_space (c : ascii) : bool :=
  let n := Z.of_nat (nat_of_ascii c) in
  ((9 <=? n) && (n <=? 13)) || (n =? 32).

Definition is_digit (c : ascii) : bool :=
  let n := Z.of_nat (nat_of_ascii c) in (48 <=? n) && (n <=? 57).

Definition digit_value (c : ascii) : Z := Z.of_nat (nat_of_ascii c) - 48.

Fixpoint lstrip (l : list ascii) : list ascii :=
  match l with
  | c :: r => if is_space c then lstrip r else l
  | [] => []
  end.

Definition strip (l : list ascii) : list ascii :=
  rev (lstrip (rev (lstrip l))).

(** Decimal digits, where single underscores may separate digits.
    [after_digit] tells whether the previous character was a digit. *)
Fixpoint digits (acc : Z) (after_digit : bool) (l : list ascii) : option Z :=
  match l with
  | [] => if after_digit then Some acc else None
  | c :: r =>
      if is_digit c then digits (10 * acc + digit_value c) true r
      else if Ascii.eqb c "_" then
        if after_digit then digits acc false r else None
      else None
  end.

Definition int_of_string (s : string) : result Z :=
  let body :=
    match strip (list_ascii_of_string s) with
    | c :: r =>
        if Ascii.eqb c "-" then option_map Z.opp (digits 0 false r)
        else if Ascii.eqb c "+" then digits 0 false r
        else digits 0 false (c :: r)
    | [] => None
    end in
  match body with
  | Some z => Ok z
  | None => Raise ValueError
  end.

(** Python's [int(x)]. A float is truncated toward zero. *)
Definition py_int (v : pyvalue) : result Z :=
  match v with
  | PyInt z => Ok z
  | PyBool b => Ok (if b then 1 else 0)
  | PyFloat q => Ok (Z.quot (Qnum q) (Zpos (Qden q)))
  | PyNaN => Raise ValueError
  | PyInf _ => Raise OverflowError
  | PyStr s => int_of_string s
  | PyNone => Raise TypeError
  end.

(** *** [str.split(sep)] with a one-character separator, and [l[-1]] *)

Fixpoint split (sep : ascii) (s : string) : list string :=
  match s with
  | EmptyString => [EmptyString]
  | String c r =>
      if Ascii.eqb c sep then EmptyString :: split sep r
      else match split sep r with
           | h :: t => String c h :: t
           | [] => [String c EmptyString]
           end
  end.

Fixpoint py_last {A : Type} (l : list A) : result A :=
  match l with
  | [] => Raise IndexError
  | [x] => Ok x
  | _ :: r => py_last r
  end.

(** [d[key]] on a dict kept as an association list. *)
Fixpoint py_getitem {A : Type} (key : string) (d : list (string * A)) : result A :=
  match d with
  | [] => Raise (KeyError key)
  | (k, v) :: r => if String.eqb k key then Ok v else py_getitem key r
  end.

(** ** Data model *)

(** One entry of [trial.parameters]. *)
Record Param : Type := {
  parameter_id : string;
  value : pyvalue
}.

(** A trial as the Vizier client returns it. *)
Record Trial : Type := {
  name : string;
  state : string;
  parameters : list Param
}.

(** One entry of a measurement's metrics: [{"metric_id": ..., "value": ...}]. *)
Record Metric : Type := {
  metric_id : string;
  metric_value : pyvalue
}.

(** [model.history.history]: metric name to the list of per-epoch values. *)
Definition History : Type := list (string * list pyvalue).

(** The cells that set the study and the run parameters. *)
Record Config : Type := {
  STUDY_ID : string;
  STUDY_DISPLAY_NAME : string;
  BUCKET : string;
  client_id : string;
  suggestion_count_per_request : Z;
  max_trial_id_to_stop : Z;
  EPOCHS : Z
}.

(** The external collaborators, as operations on a world [W]:
    the four Vizier client calls the loop makes and the Keras training run
    (batching, model compilation and [model.fit]) seen as one operation that
    yields [model.history.history]. *)
Record Env (W : Type) : Type := {
  suggest_trials : string -> Z -> string -> W -> result (list Trial) * W;
  get_trial : string -> W -> result Trial * W;
  add_trial_measurement : string -> list Metric -> W -> result unit * W;
  complete_trial : string -> bool -> W -> result unit * W;
  model_fit : Z -> pyvalue -> Z -> string -> W -> result History * W
}.

Arguments suggest_trials {W} _ _ _ _ _.
Arguments get_trial {W} _ _ _.
Arguments add_trial_measurement {W} _ _ _ _.
Arguments complete_trial {W} _ _ _ _.
Arguments model_fit {W} _ _ _ _ _ _.

(** ** The trace of calls *)

Inductive call : Type :=
| SuggestTrials (parent : string) (suggestion_count : Z) (client : string)
| GetTrial (trial_name : string)
| Evaluate (trial_name : string) (batch : Z) (rate : pyvalue)
           (epochs : Z) (study_disp_name : string)
| AddTrialMeasurement (trial_name : string) (metrics : list Metric)
| CompleteTrial (trial_name : string) (trial_infeasible : bool).

Inductive status : Type :=
| Returned
| Failed (e : exn).

Definition entry : Type := (call * status)%type.

(** ** Driver state and monad *)

Section Driver.

Variable W : Type.
Variable env : Env W.
Variable cfg : Config.

(** The world, the trace, and the notebook globals the loop reads and
    writes. [None] is an unbound name. *)
Record St : Type := {
  world : W;
  trace : list entry;
  trial_id : pyvalue;
  batch_size : option pyvalue;
  learning_rate : option pyvalue
}.

Definition M (A : Type) : Type := St -> result A * St.

Definition ret {A : Type} (a : A) : M A := fun s => (Ok a, s).

Definition bind {A B : Type} (m : M A) (f : A -> M B) : M B :=
  fun s =>
    match m s with
    | (Ok a, s') => f a s'
    | (Raise e, s') => (Raise e, s')
    end.

Notation "x <- m ;; k" := (bind m (fun x => k))
  (at level 61, m at next level, right associativity).
Notation "m ;;; k" := (bind m (fun _ => k))
  (at level 61, right associativity).

Definition lift {A : Type} (r : result A) : M A := fun s => (r, s).

Definition status_of {A : Type} (r : result A) : status :=
  match r with
  | Ok _ => Returned
  | Raise e => Failed e
  end.

Definition record_call (c : call) (st : status) (s : St) : St :=
  {| world := world s;
     trace := trace s ++ [(c, st)];
     trial_id := trial_id s;
     batch_size := batch_size s;
     learning_rate := learning_rate s |}.

Definition with_world (w : W) (s : St) : St :=
  {| world := w;
     trace := trace s;
     trial_id := trial_id s;
     batch_size := batch_size s;
     learning_rate := learning_rate s |}.

(** A remote call: run the operation on the world and record the call. *)
Definition remote {A : Type} (c : call) (op : W -> result A * W) : M A :=
  fun s =>
    let (r, w) := op (world s) in
    (r, record_call c (status_of r) (with_world w s)).

Definition set_trial_id (v : pyvalue) : M unit :=
  fun s => (Ok tt,
            {| world := world s; trace := trace s; trial_id := v;
               batch_size := batch_size s; learning_rate := learning_rate s |}).

Definition set_batch_size (v : pyvalue) : M unit :=
  fun s => (Ok tt,
            {| world := world s; trace := trace s; trial_id := trial_id s;
               batch_size := Some v; learning_rate := learning_rate s |}).

Definition set_learning_rate (v : pyvalue) : M unit :=
  fun s => (Ok tt,
            {| world := world s; trace := trace s; trial_id := trial_id s;
               batch_size := batch_size s; learning_rate := Some v |}).

Definition read_var (x : string) (get : St -> option pyvalue) : M pyvalue :=
  fun s =>
    match get s with
    | Some v => (Ok v, s)
    | None => (Raise (NameError x), s)
    end.

(** ** The evaluation function *)

(** [run_model_training]: the training run, then the last entries of the
    validation-accuracy and validation-loss histories. The function returns
    [(model, val_accuracy)]; the model is not used by the caller. *)
Definition run_model_training (batch : Z) (rate : pyvalue) (log_dir : string)
    (epochs : Z) : M pyvalue :=
  fun s =>
    let (r, w) := model_fit env batch rate epochs log_dir (world s) in
    let s' := with_world w s in
    match r with
    | Raise e => (Raise e, s')
    | Ok history =>
        (l <- lift (py_getitem "val_accuracy" history) ;;
         val_accuracy <- lift (py_last l) ;;
         l' <- lift (py_getitem "val_loss" history) ;;
         val_loss <- lift (py_last l') ;;
         ret val_accuracy) s'
    end.

(** [CreateMetrics]: the log directory is built from the last segment of the
    trial name, the model is trained, and the accuracy is wrapped in a
    one-element list of metrics. The call and how it ended are recorded. *)
Definition CreateMetrics_body (trial_name : string) (batch : Z) (rate : pyvalue)
    (epochs : Z) (study_disp_name : string) : M (list Metric) :=
  seg <- lift (py_last (split "/" trial_name)) ;;
  let LOG_DIR :=
    (BUCKET cfg ++ "/logs/pcam/" ++ study_disp_name ++ "/" ++ seg)%string in
  accuracy <- run_model_training batch rate LOG_DIR epochs ;;
  let acc := {| metric_id := "accuracy"; metric_value := accuracy |} in
  ret [acc].

Definition CreateMetrics (trial_name : string) (batch : Z) (rate : pyvalue)
    (epochs : Z) (study_disp_name : string) : M (list Metric) :=
  fun s =>
    let (r, s') := CreateMetrics_body trial_name batch rate epochs
                     study_disp_name s in
    (r, record_call (Evaluate trial_name batch rate epochs study_disp_name)
          (status_of r) s').

(** ** The cell that runs the trials *)

(** [trial.state in ["COMPLETED", "INFEASIBLE"]] *)
Definition is_terminal (st : string) : bool :=
  existsb (String.eqb st) ["COMPLETED"; "INFEASIBLE"].

(** [for param in trial.parameters: ...] *)
Fixpoint assign_parameters (ps : list Param) : M unit :=
  match ps with
  | [] => ret tt
  | param :: rest =>
      (if String.eqb (parameter_id param) "batch_size" then
         set_batch_size (value param)
       else if String.eqb (parameter_id param) "learning_rate" then
         set_learning_rate (value param)
       else ret tt) ;;;
      assign_parameters rest
  end.

(** The arguments of the [CreateMetrics] call, evaluated left to right. *)
Definition CreateMetrics_args (suggested_trial : Trial)
  : M (string * Z * pyvalue * Z * string) :=
  b <- read_var "batch_size" batch_size ;;
  n <- lift (py_int b) ;;
  r <- read_var "learning_rate" learning_rate ;;
  ret (name suggested_trial, n, r, EPOCHS cfg, STUDY_DISPLAY_NAME cfg).

(** The body of [for suggested_trial in suggest_response.result().trials]. *)
Definition process_trial (suggested_trial : Trial) : M unit :=
  seg <- lift (py_last (split "/" (name suggested_trial))) ;;
  set_trial_id (PyStr seg) ;;;
  trial <- remote (GetTrial (name suggested_trial))
                  (get_trial env (name suggested_trial)) ;;
  if is_terminal (state trial) then ret tt
  else
    assign_parameters (parameters trial) ;;;
    (* the two reads of the print statement *)
    _b <- read_var "batch_size" batch_size ;;
    _r <- read_var "learning_rate" learning_rate ;;
    args <- CreateMetrics_args suggested_trial ;;
    let '(trial_name, batch, rate, epochs, study) := args in
    metrics <- CreateMetrics trial_name batch rate epochs study ;;
    remote (AddTrialMeasurement (name suggested_trial) metrics)
           (add_trial_measurement env (name suggested_trial) metrics) ;;;
    remote (CompleteTrial (name suggested_trial) false)
           (complete_trial env (name suggested_trial) false).

Fixpoint for_each {A : Type} (f : A -> M unit) (l : list A) : M unit :=
  match l with
  | [] => ret tt
  | x :: r => f x ;;; for_each f r
  end.

(** The body of the [while] loop: one suggestion request, then the trials of
    the response in order. *)
Definition loop_body : M unit :=
  trials <- remote (SuggestTrials (STUDY_ID cfg)
                      (suggestion_count_per_request cfg) (client_id cfg))
                   (suggest_trials env (STUDY_ID cfg)
                      (suggestion_count_per_request cfg) (client_id cfg)) ;;
  for_each process_trial trials.

Inductive loop_result : Type :=
| Finished (r : result unit)
| OutOfFuel.

(** [while int(trial_id) < max_trial_id_to_stop: ...]; [fuel] bounds the
    number of times the loop test is evaluated. *)
Fixpoint trial_loop (fuel : nat) (s : St) : loop_result * St :=
  match fuel with
  | O => (OutOfFuel, s)
  | S fuel' =>
      match py_int (trial_id s) with
      | Raise e => (Finished (Raise e), s)
      | Ok v =>
          if v <? max_trial_id_to_stop cfg then
            match loop_body s with
            | (Ok _, s') => trial_loop fuel' s'
            | (Raise e, s') => (Finished (Raise e), s')
            end
          else (Finished (Ok tt), s)
      end
  end.

(** The state in which the cell starts: [trial_id = 0] is set by the cell
    itself; [batch_size = 32] was left by the cell that displays a few
    images; [learning_rate] is not bound at top level. *)
Definition initial_state (w : W) : St :=
  {| world := w;
     trace := [];
     trial_id := PyInt 0;
     batch_size := Some (PyInt 32);
     learning_rate := None |}.

End Driver.

Arguments ret {W A} a _.
Arguments bind {W A B} m f _.
Arguments lift {W A} r _.
Arguments record_call {W} c st s.
Arguments with_world {W} w s.
Arguments remote {W A} c op _.
Arguments set_trial_id {W} v _.
Arguments set_batch_size {W} v _.
Arguments set_learning_rate {W} v _.
Arguments read_var {W} x get _.
Arguments assign_parameters {W} ps _.
Arguments for_each {W A} f l _.
Arguments run_model_training {W} env batch rate log_dir epochs _.
Arguments CreateMetrics_body {W} env cfg trial_name batch rate epochs study_disp_name _.
Arguments CreateMetrics {W} env cfg trial_name batch rate epochs study_disp_name _.
Arguments CreateMetrics_args {W} cfg suggested_trial _.
Arguments process_trial {W} env cfg suggested_trial _.
Arguments loop_body {W} env cfg _.
Arguments trial_loop {W} env cfg fuel s.
Arguments world {W} _.
Arguments trace {W} _.
Arguments trial_id {W} _.
Arguments batch_size {W} _.
Arguments learning_rate {W} _.
Arguments initial_state {W} _.

(** ** Auxiliary notions used in the statements *)

(** The number a trial name ends with: [int(name.split("/")[-1])]. *)
Definition trial_number (trial_name : string) : result Z :=
  match py_last (split "/" trial_name) with
  | Ok seg => int_of_string seg
  | Raise e => Raise e
  end.

(** The value the parameter loop leaves for [id]: the last entry with that
    identifier. *)
Fixpoint param_value (id : string) (ps : list Param) : option pyvalue :=
  match ps with
  | [] => None
  | p :: rest =>
      match param_value id rest with
      | Some v => Some v
      | None => if String.eqb (parameter_id p) id then Some (value p) else None
      end
  end.

(** The variable after the parameter loop: the trial's value, or else what
    the variable held before. *)
Definition assigned (id : string) (ps : list Param) (old : option pyvalue)
  : option pyvalue :=
  match param_value id ps with
  | Some v => Some v
  | None => old
  end.

Definition is_suggest (e : entry) : bool :=
  match fst e with SuggestTrials _ _ _ => true | _ => false end.

Definition is_evaluate (e : entry) : bool :=
  match fst e with Evaluate _ _ _ _ _ => true | _ => false end.

Definition is_measurement (e : entry) : bool :=
  match fst e with AddTrialMeasurement _ _ => true | _ => false end.

Definition is_complete (e : entry) : bool :=
  match fst e with CompleteTrial _ _ => true | _ => false end.

Definition count (p : entry -> bool) (t : list entry) : nat :=
  List.length (filter p t).

Definition all_returned (t : list entry) : Prop :=
  forall c st, In (c, st) t -> st = Returned.

(** [n] is [q] rounded toward zero. *)
Definition truncation (q : Q) (n : Z) : Prop :=
  (0 <= q -> inject_Z n <= q /\ q < inject_Z n + 1)%Q /\
  (q <= 0 -> inject_Z n - 1 < q /\ q <= inject_Z n)%Q.

(** The last segment of a trial name, [name.split("/")[-1]]. *)
Definition last_segment (trial_name : string) : string :=
  match py_last (split "/" trial_name) with
  | Ok seg => seg
  | Raise _ => EmptyString
  end.

(** The directory [CreateMetrics] hands to the training run. *)
Definition log_dir (cfg : Config) (trial_name : string) : string :=
  (BUCKET cfg ++ "/logs/pcam/" ++ STUDY_DISPLAY_NAME cfg ++ "/"
   ++ last_segment trial_name)%string.

Definition accuracy_metric (v : pyvalue) : Metric :=
  {| metric_id := "accuracy"; metric_value := v |}.

(** The state in which [CreateMetrics] is called for a trial that is not
    terminal. *)
Definition at_evaluation {W : Type} (s : St W) (w : W) (suggested_trial : Trial)
    (seg : string) (b r : pyvalue) : St W :=
  {| world := w;
     trace := trace s ++ [(GetTrial (name suggested_trial), Returned)];
     trial_id := PyStr seg;
     batch_size := Some b;
     learning_rate := Some r |}.

(** The ceiling as a number of trials. *)
Definition ceiling (cfg : Config) : nat := Z.to_nat (max_trial_id_to_stop cfg).

(** A study that issues one trial per request, numbered from 1 in the
    order of issue, together with a backend whose calls all return.
    [issued w] is the number of trials issued so far, [trial_of k] the
    [k]-th trial as [get_trial] reports it, [acc_of k] the final validation
    accuracy of its training run. *)
Record follows_script {W : Type} (env : Env W) (cfg : Config)
    (issued : W -> nat) (trial_of : nat -> Trial) (acc_of : nat -> pyvalue)
  : Prop := {
  fs_number : forall k, (1 <= k <= ceiling cfg)%nat ->
    trial_number (name (trial_of k)) = Ok (Z.of_nat k);
  fs_suggest : forall w, (issued w < ceiling cfg)%nat ->
    exists t w',
      suggest_trials env (STUDY_ID cfg) (suggestion_count_per_request cfg)
        (client_id cfg) w = (Ok [t], w') /\
      name t = name (trial_of (S (issued w))) /\
      issued w' = S (issued w);
  fs_get : forall w, (1 <= issued w <= ceiling cfg)%nat ->
    exists w',
      get_trial env (name (trial_of (issued w))) w
      = (Ok (trial_of (issued w)), w') /\
      issued w' = issued w;
  fs_params : forall k, (1 <= k <= ceiling cfg)%nat ->
    is_terminal (state (trial_of k)) = false ->
    exists b r n,
      param_value "batch_size" (parameters (trial_of k)) = Some b /\
      param_value "learning_rate" (parameters (trial_of k)) = Some r /\
      py_int b = Ok n;
  fs_fit : forall w b r e d,
    exists h w' la ll loss,
      model_fit env b r e d w = (Ok h, w') /\ issued w' = issued w /\
      py_getitem "val_accuracy" h = Ok la /\
      py_last la = Ok (acc_of (issued w)) /\
      py_getitem "val_loss" h = Ok ll /\ py_last ll = Ok loss;
  fs_add : forall w n m,
    exists w',
      add_trial_measurement env n m w = (Ok tt, w') /\ issued w' = issued w;
  fs_complete : forall w n,
    exists w',
      complete_trial env n false w = (Ok tt, w') /\ issued w' = issued w
}.

(** The calls of the iteration that handles the [k]-th trial of such a
    study. *)
Definition iteration_entries (cfg : Config) (trial_of : nat -> Trial)
    (acc_of : nat -> pyvalue) (k : nat) : list entry :=
  let t := trial_of k in
  (SuggestTrials (STUDY_ID cfg) (suggestion_count_per_request cfg)
     (client_id cfg), Returned)
  :: (GetTrial (name t), Returned)
  :: (if is_terminal (state t) then []
      else
        match param_value "batch_size" (parameters t),
              param_value "learning_rate" (parameters t) with
        | Some b, Some r =>
            match py_int b with
            | Ok n =>
                [ (Evaluate (name t) n r (EPOCHS cfg)
                     (STUDY_DISPLAY_NAME cfg), Returned);
                  (AddTrialMeasurement (name t) [accuracy_metric (acc_of k)],
                   Returned);
                  (CompleteTrial (name t) false, Returned) ]
            | Raise _ => []
            end
        | _, _ => []
        end).

(** Whether the [k]-th trial gets processed. *)
Definition is_processed (trial_of : nat -> Trial) (k : nat) : bool :=
  negb (is_terminal (state (trial_of k))).

(** Every completion in [t] was sent with [trial_infeasible = False]. *)
Definition feasible_only (t : list entry) : Prop :=
  forall n b st, In (CompleteTrial n b, st) t -> b = false.

(** What a computation that ended with [r] may have added to the trace:
    calls that returned, followed, when [r] is an exception that a call
    raised, by that one failed call. *)
Definition good {A : Type} (r : result A) (t : list entry) : Prop :=
  feasible_only t /\
  match r with
  | Ok _ => all_returned t
  | Raise e =>
      all_returned t \/
      exists t0 c, t = t0 ++ [(c, Failed e)] /\ all_returned t0
  end.

Definition sound {W A : Type} (m : M W A) : Prop :=
  forall s, exists t,
    trace (snd (m s)) = trace s ++ t /\ good (fst (m s)) t.

(** A computation that makes no recorded call. *)
Definition silent {W A : Type} (m : M W A) : Prop :=
  forall s, trace (snd (m s)) = trace s.

Definition good_loop (r : loop_result) (t : list entry) : Prop :=
  match r with
  | Finished r' => good r' t
  | OutOfFuel => good (Ok tt) t
  end.

(** ** Scripted collaborators

    A study and a training backend given by tables: the world is the number
    of suggestion requests answered so far. *)

Record Script : Type := {
  batches : nat -> result (list Trial);
  lookup : string -> result Trial;
  training : Z -> pyvalue -> result History;
  measurement_reply : string -> result unit;
  completion_reply : string -> result unit
}.

Definition scripted (sc : Script) : Env nat :=
  {| suggest_trials := fun _ _ _ w => (batches sc w, S w);
     get_trial := fun n w => (lookup sc n, w);
     add_trial_measurement := fun n _ w => (measurement_reply sc n, w);
     complete_trial := fun n _ w => (completion_reply sc n, w);
     model_fit := fun b r _ _ w => (training sc b r, w) |}.

(** The run parameters as the notebook sets them. *)
Definition notebook_config : Config :=
  {| STUDY_ID := "projects/p/locations/us-central1/studies/7";
     STUDY_DISPLAY_NAME := "p_study_20211201_120000";
     BUCKET := "gs://bucket";
     client_id := "client_pcam";
     suggestion_count_per_request := 1;
     max_trial_id_to_stop := 2;
     EPOCHS := 2 |}.

Definition trial_name_of (k : nat) : string :=
  ("projects/p/locations/us-central1/studies/7/trials/"
   ++ NilEmpty.string_of_uint (Nat.to_uint k))%string.

(** The doubles [0.9] and [0.001]. *)
Definition float_0_9 : Q := 8106479329266893 # 9007199254740992.
Definition float_0_001 : Q := 1152921504606847 # 1152921504606846976.

Definition both_params (b r : Q) : list Param :=
  [ {| parameter_id := "batch_size"; value := PyFloat b |};
    {| parameter_id := "learning_rate"; value := PyFloat r |} ].

Definition history_with (val_acc : list pyvalue) : History :=
  [ ("loss", [PyFloat (1 # 2); PyFloat (1 # 4)]);
    ("accuracy", [PyFloat (3 # 4); PyFloat (7 # 8)]);
    ("val_loss", [PyFloat (1 # 2); PyFloat (1 # 3)]);
    ("val_accuracy", val_acc) ].

(** A study whose [n]-th suggestion is the trial numbered [first + n], in
    the state and with the parameters the tables give. *)
Definition study (first : nat) (state_of : nat -> string)
    (params_of : nat -> list Param) (fit : Z -> pyvalue -> result History)
  : Script :=
  let trial k :=
    {| name := trial_name_of k; state := state_of k;
       parameters := params_of k |} in
  {| batches := fun n => Ok [trial (first + n)%nat];
     lookup := fun nm =>
       match trial_number nm with
       | Ok k => Ok (trial (Z.to_nat k))
       | Raise e => Raise e
       end;
     training := fit;
     measurement_reply := fun _ => Ok tt;
     completion_reply := fun _ => Ok tt |}.

Definition fit_0_9 (b : Z) (r : pyvalue) : result History :=
  Ok (history_with [PyFloat (4 # 5); PyFloat float_0_9]).

Definition all_pending (k : nat) : string := "PENDING".

Definition usual_params (k : nat) : list Param := both_params 32 float_0_001.

(** A fresh study: trials 1, 2, 3, ... all pending. *)
Definition fresh_study : Script := study 1 all_pending usual_params fit_0_9.

(** A study that already holds one trial: suggestions start at trial 2. *)
Definition resumed_study : Script := study 2 all_pending usual_params fit_0_9.

(** A study whose trial 1 is reported as completed. *)
Definition study_with_completed_first : Script :=
  study 1 (fun k => if Nat.eqb k 1 then "COMPLETED" else "PENDING")
        usual_params fit_0_9.

(** A study that has no trial left to suggest. *)
Definition exhausted_study : Script :=
  {| batches := fun _ => Ok [];
     lookup := fun _ => Raise (ExternalError "NotFound");
     training := fit_0_9;
     measurement_reply := fun _ => Ok tt;
     completion_reply := fun _ => Ok tt |}.

(** A study whose second trial carries no [batch_size] entry; the first
    trial's batch size is [b]. *)
Definition study_missing_batch_size (b : Q) : Script :=
  study 1 all_pending
        (fun k => if Nat.eqb k 1 then both_params b float_0_001
                  else [ {| parameter_id := "learning_rate";
                            value := PyFloat float_0_001 |} ])
        fit_0_9.

(** A backend whose training run fails. *)
Definition failing_fit (b : Z) (r : pyvalue) : result History :=
  Raise (ExternalError "ResourceExhausted").

Definition study_with_failing_training : Script :=
  study 1 all_pending usual_params failing_fit.

(** The first trial of these studies, in a given state. *)
Definition first_trial (st : string) : Trial :=
  {| name := trial_name_of 1; state := st;
     parameters := usual_params 1 |}.

(** A state left by an earlier iteration with other parameter values. *)
Definition later_state : St nat :=
  {| world := 0%nat;
     trace := [];
     trial_id := PyStr "9";
     batch_size := Some (PyFloat 256);
     learning_rate := Some (PyFloat (1 # 10)) |}.

Definition run (sc : Script) (cfg : Config) (fuel : nat)
  : loop_result * St nat :=
  trial_loop (scripted sc) cfg fuel (initial_state 0%nat).

(** ** The shape of a run's trace *)

(** The calls one suggested trial gives rise to: the fetch; then, unless the
    trial is skipped or a variable or [int] fails, the evaluation; then the
    report of its one metric; then the completion.  A call that failed is
    the last one. *)
Inductive trial_block (cfg : Config) (n : string) : list entry -> Prop :=
| block_fetched (st : status) :
    trial_block cfg n [(GetTrial n, st)]
| block_evaluated (b : Z) (r : pyvalue) (e : exn) :
    trial_block cfg n
      [ (GetTrial n, Returned);
        (Evaluate n b r (EPOCHS cfg) (STUDY_DISPLAY_NAME cfg), Failed e) ]
| block_reported (b : Z) (r v : pyvalue) (e : exn) :
    trial_block cfg n
      [ (GetTrial n, Returned);
        (Evaluate n b r (EPOCHS cfg) (STUDY_DISPLAY_NAME cfg), Returned);
        (AddTrialMeasurement n [accuracy_metric v], Failed e) ]
| block_completed (b : Z) (r v : pyvalue) (st : status) :
    trial_block cfg n
      [ (GetTrial n, Returned);
        (Evaluate n b r (EPOCHS cfg) (STUDY_DISPLAY_NAME cfg), Returned);
        (AddTrialMeasurement n [accuracy_metric v], Returned);
        (CompleteTrial n false, st) ].

(** What a run adds to the trace: suggestion requests for the configured
    study and client, and blocks of calls for suggested trials. *)
Inductive loop_trace (cfg : Config) : list entry -> Prop :=
| loop_trace_nil : loop_trace cfg []
| loop_trace_suggest (st : status) (t : list entry) :
    loop_trace cfg t ->
    loop_trace cfg
      ((SuggestTrials (STUDY_ID cfg) (suggestion_count_per_request cfg)
          (client_id cfg), st) :: t)
| loop_trace_block (n : string) (blk t : list entry) :
    trial_block cfg n blk -> loop_trace cfg t -> loop_trace cfg (blk ++ t).

(** Every entry of [t] satisfies [Q], which may look at what precedes the
    entry. *)
Definition each_after (Q : entry -> list entry -> Prop) (t : list entry)
  : Prop :=
  forall pre x post, t = pre ++ x :: post -> Q x pre.

(** A completion comes right after the returned report for the same trial. *)
Definition after_report (cfg : Config) (x : entry) (pre : list entry) : Prop :=
  forall n b st, x = (CompleteTrial n b, st) ->
    b = false /\
    exists pre' bt r v,
      pre = pre' ++
            [ (GetTrial n, Returned);
              (Evaluate n bt r (EPOCHS cfg) (STUDY_DISPLAY_NAME cfg),
               Returned);
              (AddTrialMeasurement n [accuracy_metric v], Returned) ].

(** A report carries one accuracy metric and comes right after the returned
    evaluation of the same trial. *)
Definition after_evaluation (cfg : Config) (x : entry) (pre : list entry) : Prop :=
  forall n m st, x = (AddTrialMeasurement n m, st) ->
    exists pre' bt r v,
      m = [accuracy_metric v] /\
      pre = pre' ++
            [ (GetTrial n, Returned);
              (Evaluate n bt r (EPOCHS cfg) (STUDY_DISPLAY_NAME cfg),
               Returned) ].

(** An evaluation comes right after the returned fetch of the same trial. *)
Definition after_fetch (cfg : Config) (x : entry) (pre : list entry) : Prop :=
  forall n bt r e d st, x = (Evaluate n bt r e d, st) ->
    e = EPOCHS cfg /\ d = STUDY_DISPLAY_NAME cfg /\
    exists pre', pre = pre' ++ [(GetTrial n, Returned)].

Definition is_fetch (e : entry) : bool :=
  match fst e with GetTrial _ => true | _ => false end.

(** Python's [str(n)] for a natural number. *)
Definition py_str_nat (n : nat) : string :=
  NilEmpty.string_of_uint (Nat.to_uint n).

(** A study whose trials carry a batch size and no learning rate. *)
Definition study_missing_learning_rate : Script :=
  study 1 all_pending
        (fun _ => [ {| parameter_id := "batch_size"; value := PyFloat 32 |} ])
        fit_0_9.

(** A study that answers every request with two trials, numbered on. *)
Definition paired_study : Script :=
  let trial k :=
    {| name := trial_name_of k; state := "PENDING";
       parameters := usual_params k |} in
  {| batches := fun n => Ok [trial (2 * n + 1)%nat; trial (2 * n + 2)%nat];
     lookup := fun nm =>
       match trial_number nm with
       | Ok k => Ok (trial (Z.to_nat k))
       | Raise e => Raise e
       end;
     training := fit_0_9;
     measurement_reply := fun _ => Ok tt;
     completion_reply := fun _ => Ok tt |}.

(** A study whose trial names do not end in a number. *)
Definition opaque_trial : Trial :=
  {| name := "projects/p/locations/us-central1/studies/7/trials/first";
     state := "PENDING";
     parameters := usual_params 1 |}.

Definition opaque_study : Script :=
  {| batches := fun _ => Ok [opaque_trial];
     lookup := fun _ => Ok opaque_trial;
     training := fit_0_9;
     measurement_reply := fun _ => Ok tt;
     completion_reply := fun _ => Ok tt |}.

(** ** More Python strings: [startswith], [replace], [l[0]] *)

Fixpoint starts_with (pre s : string) : bool :=
  match pre with
  | EmptyString => true
  | String a pre' =>
      match s with
      | EmptyString => false
      | String b s' => Ascii.eqb a b && starts_with pre' s'
      end
  end.

(** [s.replace(old, new)] for a non-empty [old]: left to right, the
    occurrences do not overlap. [skip] counts the characters of a replaced
    occurrence that are still to be passed over. *)
Fixpoint replace_from (skip : nat) (old new s : string) : string :=
  match s with
  | EmptyString => EmptyString
  | String c r =>
      match skip with
      | S k => replace_from k old new r
      | O =>
          if starts_with old s then
            (new ++ replace_from (String.length old - 1) old new r)%string
          else String c (replace_from 0 old new r)
      end
  end.

(** With an empty [old], [new] goes before every character and at the
    end. *)
Fixpoint interleave (new s : string) : string :=
  match s with
  | EmptyString => new
  | String c r => (new ++ String c (interleave new r))%string
  end.

Definition py_replace (old new s : string) : string :=
  match old with
  | EmptyString => interleave new s
  | String _ _ => replace_from 0 old new s
  end.

(** Whether [old] occurs in [s]. *)
Fixpoint occurs (old s : string) : bool :=
  match s with
  | EmptyString => starts_with old EmptyString
  | String _ r => starts_with old s || occurs old r
  end.

Definition py_first {A : Type} (l : list A) : result A :=
  match l with
  | [] => Raise IndexError
  | x :: _ => Ok x
  end.

(** ** The study's display name

    ["{}_study_{}".format(PROJECT_ID.replace("-", ""), <timestamp>)] *)
Definition study_display_name (PROJECT_ID timestamp : string) : string :=
  (py_replace "-" EmptyString PROJECT_ID ++ "_study_" ++ timestamp)%string.

(** ** The user name of the job-submission notebook

    [USER] starts empty; with a non-empty [OWNER_EMAIL] it becomes
    [OWNER_EMAIL.split("@")[0]]; a later cell replaces an empty [USER] by a
    placeholder. *)
Definition user_of_owner_email (OWNER_EMAIL : string) : result string :=
  match
    (match OWNER_EMAIL with
     | EmptyString => Ok EmptyString
     | String _ _ => py_first (split "@" OWNER_EMAIL)
     end)
  with
  | Raise e => Raise e
  | Ok USER =>
      if String.eqb USER EmptyString then Ok "your-username" else Ok USER
  end.

(** ** Python lists and dicts of the job-submission notebook *)

(** [l.index(x)]: the first position of [x], [ValueError] when absent. *)
Fixpoint py_index (x : string) (l : list string) : result nat :=
  match l with
  | [] => Raise ValueError
  | y :: r =>
      if String.eqb y x then Ok O
      else match py_index x r with
           | Ok i => Ok (S i)
           | Raise e => Raise e
           end
  end.

(** [l.insert(i, x)] for [i >= 0]: past the end, [x] is appended. *)
Fixpoint py_insert (i : nat) (x : string) (l : list string) : list string :=
  match i, l with
  | O, _ => x :: l
  | S _, [] => [x]
  | S k, y :: r => y :: py_insert k x r
  end.

(** [d[k] = v] on a dict kept in insertion order: an existing key keeps
    its place. *)
Fixpoint dict_set {A : Type} (k : string) (v : A) (d : list (string * A))
  : list (string * A) :=
  match d with
  | [] => [(k, v)]
  | (k', v') :: r =>
      if String.eqb k' k then (k', v) :: r else (k', v') :: dict_set k v r
  end.

(** [{l[i]: l[i + 1] for i in range(0, len(l), 2)}], [acc] being the dict
    built so far. *)
Fixpoint pairs_dict (l : list string) (acc : list (string * string))
  : result (list (string * string)) :=
  match l with
  | [] => Ok acc
  | [_] => Raise IndexError
  | k :: v :: rest => pairs_dict rest (dict_set k v acc)
  end.

(** The cell that turns the command-line arguments into a dict:
    [argslist = CMDARGS.copy()],
    [argslist.insert(argslist.index("--multi-node") + 1, "True")],
    then the comprehension. *)
Definition args_dict (CMDARGS : list string)
  : result (list (string * string)) :=
  let argslist := CMDARGS in
  match py_index "--multi-node" argslist with
  | Raise e => Raise e
  | Ok i => pairs_dict (py_insert (i + 1) "True" argslist) []
  end.

(** [{**d1, **d2}] *)
Definition dict_merge {A : Type} (d1 d2 : list (string * A))
  : list (string * A) :=
  fold_left (fun d kv => dict_set (fst kv) (snd kv) d) d2 d1.

(** The value that follows the last occurrence of [k] at an even position
    of [l]. *)
Fixpoint last_pair (k : string) (l : list string) : option string :=
  match l with
  | a :: b :: rest =>
      match last_pair k rest with
      | Some v => Some v
      | None => if String.eqb a k then Some b else None
      end
  | _ => None
  end.

(** The names and arguments of the multi-node training job, from the user
    name, the bucket and the time stamp [ts = int(time.time())]. *)
Definition NB_NUM : string := "02-2".
Definition IMAGE_HEIGHT : nat := 96.
Definition IMAGE_WIDTH : nat := 96.

Definition MODEL_DISPLAY_NAME (USER : string) (ts : nat) : string :=
  (USER ++ "-pcam_distrib_mw" ++ NB_NUM ++ "-" ++ py_str_nat ts)%string.

Definition GCS_WORKDIR (BUCKET_NAME USER : string) (ts : nat) : string :=
  ("gs://" ++ BUCKET_NAME ++ "/" ++ MODEL_DISPLAY_NAME USER ts)%string.

Definition DISTRIB_GCS_MODEL_SAVEDIR (BUCKET_NAME USER : string) (ts : nat)
  : string :=
  (GCS_WORKDIR BUCKET_NAME USER ts ++ "/" ++ py_str_nat ts)%string.

Definition DISTRIB_GCS_METRICS_PATH (BUCKET_NAME USER : string) (ts : nat)
  : string :=
  ("/gcs/" ++ BUCKET_NAME ++ "/" ++ MODEL_DISPLAY_NAME USER ts
   ++ "/metrics/" ++ py_str_nat ts)%string.

Definition CMDARGS (BUCKET_NAME USER : string) (ts : nat) : list string :=
  [ "--epochs"; py_str_nat 2;
    "--batch-size"; py_str_nat 32;
    "--multi-node";
    "--gcs-workdir"; GCS_WORKDIR BUCKET_NAME USER ts;
    "--gcs-model-savedir"; DISTRIB_GCS_MODEL_SAVEDIR BUCKET_NAME USER ts;
    "--gcs-metrics-path"; DISTRIB_GCS_METRICS_PATH BUCKET_NAME USER ts;
    "--image-height"; py_str_nat IMAGE_HEIGHT;
    "--image-width"; py_str_nat IMAGE_WIDTH;
    "--ml-task"; "patchcamelyon" ].

(** [PARAMS = {"model_display_name": MODEL_DISPLAY_NAME}], then
    [PARAMS = {**PARAMS, **args_dict}]. *)
Definition PARAMS (BUCKET_NAME USER : string) (ts : nat)
  : result (list (string * string)) :=
  match args_dict (CMDARGS BUCKET_NAME USER ts) with
  | Raise e => Raise e
  | Ok d =>
      Ok (dict_merge [("model_display_name", MODEL_DISPLAY_NAME USER ts)] d)
  end.

(** [f"{DISTRIB_GCS_METRICS_PATH}/metrics.json".replace("/gcs/", "gs://")] *)
Definition metrics_file (BUCKET_NAME USER : string) (ts : nat) : string :=
  py_replace "/gcs/" "gs://"
    (DISTRIB_GCS_METRICS_PATH BUCKET_NAME USER ts ++ "/metrics.json").

(** The arguments of the hyperparameter-tuning job of the same notebook. *)
Definition HPT_MODEL_DISPLAY_NAME (USER : string) (ts : nat) : string :=
  (USER ++ "-pcam_hptune" ++ NB_NUM ++ "-" ++ py_str_nat ts)%string.

Definition HPT_CMDARGS (BUCKET_NAME USER : string) (ts : nat) : list string :=
  let GCS_WORKDIR :=
    ("gs://" ++ BUCKET_NAME ++ "/" ++ HPT_MODEL_DISPLAY_NAME USER ts)%string in
  let HPT_GCS_MODEL_SAVEDIR := (GCS_WORKDIR ++ "/" ++ py_str_nat ts)%string in
  let GCS_METRICS_PATH :=
    ("/gcs/" ++ BUCKET_NAME ++ "/" ++ HPT_MODEL_DISPLAY_NAME USER ts
     ++ "/metrics/" ++ py_str_nat ts)%string in
  [ "--epochs"; py_str_nat 2;
    "--gcs-workdir"; GCS_WORKDIR;
    "--gcs-model-savedir"; HPT_GCS_MODEL_SAVEDIR;
    "--gcs-metrics-path"; GCS_METRICS_PATH;
    "--image-height"; py_str_nat IMAGE_HEIGHT;
    "--image-width"; py_str_nat IMAGE_WIDTH;
    "--ml-task"; "patchcamelyon";
    "--fine-tune"; "false";
    "--batch-size"; "32";
    "--hptune" ].

(** ** The study configuration *)

Record DiscreteParameter : Type := {
  dp_parameter_id : string;
  dp_values : list Q;
  dp_default_value : Q
}.

Definition param_batch_size : DiscreteParameter :=
  {| dp_parameter_id := "batch_size";
     dp_values := [16; 32; 64; 128; 256]%Q;
     dp_default_value := 32%Q |}.

(** The doubles [1e-4], [1e-3], [1e-2] and [1e-1]. *)
Definition param_learning_rate : DiscreteParameter :=
  {| dp_parameter_id := "learning_rate";
     dp_values := [ 7378697629483821 # 73786976294838206464;
                    float_0_001;
                    5764607523034235 # 576460752303423488;
                    3602879701896397 # 36028797018963968 ];
     dp_default_value := float_0_001 |}.

Record MetricSpec : Type := {
  ms_metric_id : string;
  ms_goal : string
}.

Definition metric_acc : MetricSpec :=
  {| ms_metric_id := "accuracy"; ms_goal := "MAXIMIZE" |}.

Record StudySpec : Type := {
  algorithm : string;
  spec_parameters : list DiscreteParameter;
  spec_metrics : list MetricSpec
}.

Definition study_spec : StudySpec :=
  {| algorithm := "RANDOM_SEARCH";
     spec_parameters := [param_batch_size; param_learning_rate];
     spec_metrics := [metric_acc] |}.

(** A trial of the study: it gives every parameter of the configuration
    one of the values the configuration lists for it. *)
Definition drawn_from (spec : StudySpec) (ps : list Param) : Prop :=
  forall dp, In dp (spec_parameters spec) ->
    exists q v,
      param_value (dp_parameter_id dp) ps = Some (PyFloat q) /\
      In v (dp_values dp) /\ (q == v)%Q.

(** ** Sanity checks of the Python primitives *)

Example int_of_string_ex1 : int_of_string "12" = Ok 12.
Proof. reflexivity. Qed.
Example int_of_string_ex2 : int_of_string " -1_000 " = Ok (-1000).
Proof. reflexivity. Qed.
Example int_of_string_ex3 : int_of_string "1__0" = Raise ValueError.
Proof. reflexivity. Qed.
Example int_of_string_ex4 : int_of_string EmptyString = Raise ValueError.
Proof. reflexivity. Qed.
Example split_ex1 : split "/" "projects/p/trials/3" = ["projects"; "p"; "trials"; "3"].
Proof. reflexivity. Qed.
Example split_ex2 : split "/" "a/" = ["a"; EmptyString].
Proof. reflexivity. Qed.
Example py_int_ex1 : py_int (PyFloat (-7 # 2)) = Ok (-3).
Proof. reflexivity. Qed.
Example int_of_string_ex5 : int_of_string "+_1" = Raise ValueError.
Proof. reflexivity. Qed.
Example py_int_ex2 : py_int (PyFloat 32) = Ok 32.
Proof. reflexivity. Qed.
Example trial_number_ex1 : trial_number (trial_name_of 12) = Ok 12.
Proof. reflexivity. Qed.

(** ** Python primitives *)

Lemma split_nonempty (sep : ascii) (s : string) : split sep s <> [].
Proof.
  induction s as [|c r IH]; simpl.
  - discriminate.
  - destruct (Ascii.eqb c sep); [discriminate|].
    destruct (split sep r); discriminate.
Qed.

Lemma py_last_app {A : Type} (l : list A) (x : A) : py_last (l ++ [x]) = Ok x.
Proof.
  induction l as [|y l IH]; simpl; [reflexivity|].
  destruct (l ++ [x]) eqn:E; [|exact IH].
  destruct l; discriminate.
Qed.

Lemma py_last_nonempty {A : Type} (l : list A) :
  l <> [] -> exists x, py_last l = Ok x.
Proof.
  intros H. destruct (exists_last H) as [l' [x ->]].
  exists x. apply py_last_app.
Qed.

Lemma last_segment_exists (trial_name : string) :
  exists seg, py_last (split "/" trial_name) = Ok seg.
Proof. apply py_last_nonempty, split_nonempty. Qed.

(** [int] of a float rounds toward zero. *)
Lemma py_int_float_truncation (q : Q) (n : Z) :
  py_int (PyFloat q) = Ok n -> truncation q n.
Proof.
  simpl. intros H. injection H as <-.
  destruct q as [a d].
  unfold truncation, Qle, Qlt, inject_Z, Qplus, Qminus, Qopp. simpl.
  pose proof (Z.quot_rem' a (Zpos d)) as Hqr.
  rewrite !Z.mul_1_r, Z.mul_add_distr_r, Z.mul_1_l.
  rewrite (Z.mul_comm (a ÷ Z.pos d)).
  split; intros Ha.
  - pose proof (Z.rem_bound_pos a (Zpos d) ltac:(lia) ltac:(lia)). lia.
  - pose proof (Z.rem_bound_pos_neg a (Zpos d) ltac:(lia) ltac:(lia)). lia.
Qed.

(** ** The trace discipline of the monad *)

Section Traces.

Context {W : Type} (env : Env W) (cfg : Config).

Lemma all_returned_app (t1 t2 : list entry) :
  all_returned t1 -> all_returned t2 -> all_returned (t1 ++ t2).
Proof.
  intros H1 H2 c st Hin. apply in_app_or in Hin as [Hin|Hin]; eauto.
Qed.

Lemma feasible_only_app (t1 t2 : list entry) :
  feasible_only t1 -> feasible_only t2 -> feasible_only (t1 ++ t2).
Proof.
  intros H1 H2 n b st Hin. apply in_app_or in Hin as [Hin|Hin]; eauto.
Qed.

Lemma all_returned_nil : all_returned [].
Proof. intros c st []. Qed.

Lemma feasible_only_nil : feasible_only [].
Proof. intros n b st []. Qed.

Lemma good_nil {A : Type} (r : result A) : good r [].
Proof.
  split; [apply feasible_only_nil|].
  destruct r; [|left]; apply all_returned_nil.
Qed.

(** Sequencing: what was added before a normal return, then what came
    after. *)
Lemma good_app {A B : Type} (a : A) (r : result B) (t1 t2 : list entry) :
  good (Ok a) t1 -> good r t2 -> good r (t1 ++ t2).
Proof.
  intros [F1 R1] [F2 R2]. split; [now apply feasible_only_app|].
  destruct r as [b|e].
  - now apply all_returned_app.
  - destruct R2 as [R2|(t0 & c & -> & R0)].
    + left. now apply all_returned_app.
    + right. exists (t1 ++ t0), c. split; [now rewrite app_assoc|].
      now apply all_returned_app.
Qed.

Lemma silent_sound {A : Type} (m : M W A) : silent m -> sound m.
Proof.
  intros H s. exists []. rewrite app_nil_r. split; [apply H|apply good_nil].
Qed.

Lemma silent_bind {A B : Type} (m : M W A) (f : A -> M W B) :
  silent m -> (forall a, silent (f a)) -> silent (bind m f).
Proof.
  intros Hm Hf s. unfold bind. specialize (Hm s).
  destruct (m s) as [[a|e] s1]; simpl in *.
  - rewrite Hf. exact Hm.
  - exact Hm.
Qed.

Lemma sound_bind {A B : Type} (m : M W A) (f : A -> M W B) :
  sound m -> (forall a, sound (f a)) -> sound (bind m f).
Proof.
  intros Hm Hf s. unfold bind.
  destruct (Hm s) as (t1 & E1 & G1).
  destruct (m s) as [[a|e] s1]; simpl in *.
  - destruct (Hf a s1) as (t2 & E2 & G2).
    exists (t1 ++ t2). split.
    + rewrite E2, E1. now rewrite app_assoc.
    + eapply good_app; eassumption.
  - exists t1. split; [exact E1|exact G1].
Qed.

Lemma silent_ret {A : Type} (a : A) : silent (@ret W A a).
Proof. intros s. reflexivity. Qed.

Lemma silent_lift {A : Type} (r : result A) : silent (@lift W A r).
Proof. intros s. reflexivity. Qed.

Lemma silent_set_trial_id (v : pyvalue) : silent (@set_trial_id W v).
Proof. intros s. reflexivity. Qed.

Lemma silent_set_batch_size (v : pyvalue) : silent (@set_batch_size W v).
Proof. intros s. reflexivity. Qed.

Lemma silent_set_learning_rate (v : pyvalue) : silent (@set_learning_rate W v).
Proof. intros s. reflexivity. Qed.

Lemma silent_read_var (x : string) (get : St W -> option pyvalue) :
  silent (read_var x get).
Proof. intros s. unfold read_var. destruct (get s); reflexivity. Qed.

Lemma silent_assign_parameters (ps : list Param) :
  silent (@assign_parameters W ps).
Proof.
  induction ps as [|p rest IH]; simpl.
  - apply silent_ret.
  - apply silent_bind; [|intros _; exact IH].
    destruct (String.eqb (parameter_id p) "batch_size");
      [apply silent_set_batch_size|].
    destruct (String.eqb (parameter_id p) "learning_rate");
      [apply silent_set_learning_rate|apply silent_ret].
Qed.

Lemma silent_run_model_training batch rate log_dir epochs :
  silent (run_model_training env batch rate log_dir epochs).
Proof.
  intros s. unfold run_model_training.
  destruct (model_fit env batch rate epochs log_dir (world s)) as [[h|e] w];
    [|reflexivity].
  assert (Hs : forall h : History, silent
            (bind (lift (py_getitem "val_accuracy" h)) (fun l =>
             bind (lift (py_last l)) (fun val_accuracy =>
             bind (lift (py_getitem "val_loss" h)) (fun l' =>
             bind (lift (py_last l')) (fun _ => @ret W _ val_accuracy)))))).
  { intros h0. repeat (apply silent_bind; [apply silent_lift|intros ?]).
    apply silent_ret. }
  apply (Hs h (with_world w s)).
Qed.

Lemma silent_CreateMetrics_body n b r e d :
  silent (CreateMetrics_body env cfg n b r e d).
Proof.
  unfold CreateMetrics_body.
  apply silent_bind; [apply silent_lift|intros seg].
  apply silent_bind; [apply silent_run_model_training|intros acc].
  apply silent_ret.
Qed.

Lemma good_single {A : Type} (c : call) (r : result A) :
  (forall n, c <> CompleteTrial n true) ->
  good r [(c, status_of r)].
Proof.
  intros Hc. split.
  - intros n b st [H|[]]. injection H as -> _.
    destruct b; [exfalso; eapply Hc; reflexivity|reflexivity].
  - destruct r as [a|e]; simpl.
    + intros c' st [H|[]]. now injection H as _ <-.
    + right. exists [], c. split; [reflexivity|apply all_returned_nil].
Qed.

Lemma sound_remote {A : Type} (c : call) (op : W -> result A * W) :
  (forall n, c <> CompleteTrial n true) -> sound (remote c op).
Proof.
  intros Hc s. unfold remote. destruct (op (world s)) as [r w]. simpl.
  exists [(c, status_of r)]. split; [reflexivity|now apply good_single].
Qed.

Lemma sound_CreateMetrics n b r e d : sound (CreateMetrics env cfg n b r e d).
Proof.
  intros s. unfold CreateMetrics.
  pose proof (silent_CreateMetrics_body n b r e d s) as Hs.
  destruct (CreateMetrics_body env cfg n b r e d s) as [res s1]. simpl in *.
  exists [(Evaluate n b r e d, status_of res)]. split.
  - now rewrite Hs.
  - apply good_single. discriminate.
Qed.

Lemma sound_for_each {A : Type} (f : A -> M W unit) (l : list A) :
  (forall x, sound (f x)) -> sound (for_each f l).
Proof.
  intros Hf. induction l as [|x l IH]; simpl.
  - apply silent_sound, silent_ret.
  - apply sound_bind; [apply Hf|intros _; exact IH].
Qed.

Lemma sound_process_trial (t : Trial) : sound (process_trial env cfg t).
Proof.
  unfold process_trial.
  apply sound_bind; [apply silent_sound, silent_lift|intros seg].
  apply sound_bind; [apply silent_sound, silent_set_trial_id|intros _].
  apply sound_bind; [apply sound_remote; discriminate|intros trial].
  destruct (is_terminal (state trial)); [apply silent_sound, silent_ret|].
  apply sound_bind; [apply silent_sound, silent_assign_parameters|intros _].
  apply sound_bind; [apply silent_sound, silent_read_var|intros _].
  apply sound_bind; [apply silent_sound, silent_read_var|intros _].
  apply sound_bind.
  { unfold CreateMetrics_args.
    apply silent_sound.
    repeat (apply silent_bind;
            [first [apply silent_read_var|apply silent_lift]|intros ?]).
    apply silent_ret. }
  intros [[[[trial_name batch] rate] epochs] study].
  apply sound_bind; [apply sound_CreateMetrics|intros metrics].
  apply sound_bind; [apply sound_remote; discriminate|intros _].
  apply sound_remote. intros n H. discriminate H.
Qed.

Lemma sound_loop_body : sound (loop_body env cfg).
Proof.
  unfold loop_body.
  apply sound_bind; [apply sound_remote; discriminate|intros trials].
  apply sound_for_each, sound_process_trial.
Qed.

Lemma trial_loop_good (fuel : nat) (s : St W) :
  exists t, trace (snd (trial_loop env cfg fuel s)) = trace s ++ t /\
            good_loop (fst (trial_loop env cfg fuel s)) t.
Proof.
  revert s. induction fuel as [|fuel IH]; intros s; simpl.
  - exists []. rewrite app_nil_r. split; [reflexivity|apply good_nil].
  - destruct (py_int (trial_id s)) as [v|e]; simpl.
    + destruct (v <? max_trial_id_to_stop cfg).
      * destruct (sound_loop_body s) as (t1 & E1 & G1).
        destruct (loop_body env cfg s) as [[[]|e] s1]; simpl in *.
        -- destruct (IH s1) as (t2 & E2 & G2).
           exists (t1 ++ t2). split; [now rewrite E2, E1, app_assoc|].
           destruct (fst (trial_loop env cfg fuel s1)); simpl in *;
             eapply good_app; eassumption.
        -- exists t1. split; [exact E1|exact G1].
      * exists []. rewrite app_nil_r. split; [reflexivity|apply good_nil].
    + exists []. rewrite app_nil_r. split; [reflexivity|apply good_nil].
Qed.

End Traces.

(** ** Failures and completions over whole runs *)

Lemma failed_is_last (l pre post : list entry) (x : entry) (c : call) (e : exn) :
  all_returned l ->
  l ++ [x] = pre ++ (c, Failed e) :: post ->
  post = [] /\ x = (c, Failed e).
Proof.
  intros Hl H. destruct post as [|y post'] using rev_ind.
  - apply app_inj_tail in H as [_ ->]. now split.
  - clear IHpost'. exfalso.
    change (pre ++ (c, Failed e) :: post' ++ [y])
      with (pre ++ ((c, Failed e) :: post') ++ [y]) in H.
    rewrite app_assoc in H. apply app_inj_tail in H as [-> _].
    assert (Hin : In (c, Failed e) (pre ++ (c, Failed e) :: post'))
      by (apply in_or_app; right; left; reflexivity).
    apply Hl in Hin. discriminate.
Qed.

(** C6. Whenever a remote call or the evaluation function raises during a
    run, the failed call is the last call of the run and the loop ends with
    that very exception: nothing is retried, no measurement or completion is
    sent for the trial whose evaluation failed, and no further suggestion is
    requested. *)
Theorem failure_ends_the_run {W : Type} (env : Env W) (cfg : Config)
    (fuel : nat) (s : St W) (pre post : list entry) (c : call) (e : exn) :
  all_returned (trace s) ->
  trace (snd (trial_loop env cfg fuel s)) = pre ++ (c, Failed e) :: post ->
  post = [] /\ fst (trial_loop env cfg fuel s) = Finished (Raise e).
Proof.
  intros Hs H.
  destruct (trial_loop_good env cfg fuel s) as (t & E & G).
  rewrite E in H.
  assert (Hall : all_returned (trace s ++ t) -> False).
  { intros Hall. rewrite H in Hall.
    assert (Hin : In (c, Failed e) (pre ++ (c, Failed e) :: post))
      by (apply in_or_app; right; left; reflexivity).
    apply Hall in Hin. discriminate. }
  destruct (fst (trial_loop env cfg fuel s)) as [[[]|e']|]; simpl in G;
    destruct G as [_ G].
  - exfalso. apply Hall. now apply all_returned_app.
  - destruct G as [G|(t0 & c' & -> & G0)].
    + exfalso. apply Hall. now apply all_returned_app.
    + rewrite app_assoc in H.
      apply failed_is_last in H as [-> Hx];
        [|now apply all_returned_app].
      injection Hx as _ ->. now split.
  - exfalso. apply Hall. now apply all_returned_app.
Qed.

Lemma failure_ends_the_run_witness :
  fst (run study_with_failing_training notebook_config 5)
  = Finished (Raise (ExternalError "ResourceExhausted")).
Proof.
  apply (failure_ends_the_run (scripted study_with_failing_training)
           notebook_config 5 (initial_state 0%nat)
           [ (SuggestTrials (STUDY_ID notebook_config) 1 "client_pcam",
              Returned);
             (GetTrial (trial_name_of 1), Returned) ]
           []
           (Evaluate (trial_name_of 1) 32 (PyFloat float_0_001) 2
              (STUDY_DISPLAY_NAME notebook_config))).
  - intros c st H. destruct H.
  - reflexivity.
Defined.

(** C3 (as the code has it). Every completion the loop sends carries
    [trial_infeasible = False]. *)
Theorem completions_are_feasible {W : Type} (env : Env W) (cfg : Config)
    (fuel : nat) (s : St W) (t : list entry) :
  trace (snd (trial_loop env cfg fuel s)) = trace s ++ t ->
  feasible_only t.
Proof.
  intros H.
  destruct (trial_loop_good env cfg fuel s) as (t' & E & G).
  rewrite E in H. apply app_inv_head in H. subst t'.
  destruct (fst (trial_loop env cfg fuel s)) as [r|]; apply G.
Qed.

Lemma completions_are_feasible_witness :
  feasible_only (trace (snd (run fresh_study notebook_config 5))).
Proof.
  apply (completions_are_feasible (scripted fresh_study) notebook_config 5
           (initial_state 0%nat)).
  reflexivity.
Defined.

(** C3 (as stated) fails: no run of the loop, whatever the study, the
    training backend and the configuration, sends a completion with
    [trial_infeasible = True]. *)
Lemma no_infeasible_completion_path :
  ~ exists (W : Type) (env : Env W) (cfg : Config) (fuel : nat) (w : W)
           (n : string) (st : status),
      In (CompleteTrial n true, st)
         (trace (snd (trial_loop env cfg fuel (initial_state w)))).
Proof.
  intros (W & env & cfg & fuel & w & n & st & Hin).
  destruct (trial_loop_good env cfg fuel (initial_state w)) as (t & E & G).
  rewrite E in Hin. simpl in Hin.
  assert (F : feasible_only t)
    by (destruct (fst (trial_loop env cfg fuel (initial_state w))); apply G).
  apply F in Hin. discriminate.
Qed.

(** ** One trial *)

Section OneTrial.

Context {W : Type} (env : Env W) (cfg : Config).

Lemma assign_parameters_spec (ps : list Param) (s : St W) :
  assign_parameters ps s =
  (Ok tt,
   {| world := world s;
      trace := trace s;
      trial_id := trial_id s;
      batch_size := assigned "batch_size" ps (batch_size s);
      learning_rate := assigned "learning_rate" ps (learning_rate s) |}).
Proof.
  revert s. induction ps as [|p rest IH]; intros s.
  - destruct s; reflexivity.
  - simpl. unfold bind, assigned. simpl.
    destruct (String.eqb (parameter_id p) "batch_size") eqn:Eb.
    + apply String.eqb_eq in Eb.
      assert (El : String.eqb (parameter_id p) "learning_rate" = false)
        by (rewrite Eb; reflexivity).
      rewrite El. unfold set_batch_size. rewrite IH. unfold assigned. simpl.
      destruct (param_value "batch_size" rest);
        destruct (param_value "learning_rate" rest); reflexivity.
    + destruct (String.eqb (parameter_id p) "learning_rate") eqn:El.
      * unfold set_learning_rate. rewrite IH. unfold assigned. simpl.
        destruct (param_value "batch_size" rest);
          destruct (param_value "learning_rate" rest); reflexivity.
      * unfold ret. rewrite IH. unfold assigned.
        destruct (param_value "batch_size" rest);
          destruct (param_value "learning_rate" rest); reflexivity.
Qed.

(** Up to the evaluation: the trial is fetched, its parameters are
    assigned, and [CreateMetrics] is called with [int(batch_size)] and
    [learning_rate]; the report and the completion follow. *)
Lemma process_trial_reaches_evaluation (t trial : Trial) (s : St W) (w : W)
    (seg : string) (b r : pyvalue) (n : Z) :
  py_last (split "/" (name t)) = Ok seg ->
  get_trial env (name t) (world s) = (Ok trial, w) ->
  is_terminal (state trial) = false ->
  assigned "batch_size" (parameters trial) (batch_size s) = Some b ->
  assigned "learning_rate" (parameters trial) (learning_rate s) = Some r ->
  py_int b = Ok n ->
  process_trial env cfg t s =
  bind (CreateMetrics env cfg (name t) n r (EPOCHS cfg)
          (STUDY_DISPLAY_NAME cfg))
       (fun metrics =>
          bind (remote (AddTrialMeasurement (name t) metrics)
                  (add_trial_measurement env (name t) metrics))
               (fun _ => remote (CompleteTrial (name t) false)
                           (complete_trial env (name t) false)))
       (at_evaluation s w t seg b r).
Proof.
  intros Hseg Hget Hterm Hb Hr Hn. unfold at_evaluation.
  unfold process_trial, bind at 1 2 3, lift, set_trial_id, remote at 1.
  rewrite Hseg. simpl. rewrite Hget. simpl. rewrite Hterm.
  unfold bind at 1. rewrite assign_parameters_spec. simpl.
  rewrite Hb, Hr.
  unfold bind at 1, read_var at 1. simpl.
  unfold bind at 1, read_var at 1. simpl.
  unfold bind at 1, CreateMetrics_args, bind at 1, read_var at 1. simpl.
  unfold bind at 1, lift. rewrite Hn.
  unfold bind at 1, read_var at 1. simpl.
  reflexivity.
Qed.

Lemma last_segment_spec (trial_name : string) :
  py_last (split "/" trial_name) = Ok (last_segment trial_name).
Proof.
  unfold last_segment.
  destruct (last_segment_exists trial_name) as [seg ->]. reflexivity.
Qed.

Lemma CreateMetrics_trace n b r e d (s : St W) :
  trace (snd (CreateMetrics env cfg n b r e d s))
  = trace s ++ [(Evaluate n b r e d,
                 status_of (fst (CreateMetrics env cfg n b r e d s)))].
Proof.
  unfold CreateMetrics.
  pose proof (silent_CreateMetrics_body env cfg n b r e d s) as Hs.
  destruct (CreateMetrics_body env cfg n b r e d s) as [res s1].
  simpl in *. now rewrite Hs.
Qed.

(** [CreateMetrics] when the training run returns a history with a
    validation accuracy and a validation loss for at least one epoch. *)
Lemma CreateMetrics_returns n b r e (s : St W) h w la acc ll loss :
  model_fit env b r e (log_dir cfg n) (world s) = (Ok h, w) ->
  py_getitem "val_accuracy" h = Ok la -> py_last la = Ok acc ->
  py_getitem "val_loss" h = Ok ll -> py_last ll = Ok loss ->
  CreateMetrics env cfg n b r e (STUDY_DISPLAY_NAME cfg) s
  = (Ok [accuracy_metric acc],
     record_call (Evaluate n b r e (STUDY_DISPLAY_NAME cfg)) Returned
       (with_world w s)).
Proof.
  intros Hfit Hla Hacc Hll Hloss.
  unfold CreateMetrics, CreateMetrics_body, bind at 1, lift.
  rewrite last_segment_spec.
  unfold bind at 1, run_model_training. fold (log_dir cfg n).
  rewrite Hfit. unfold bind, lift.
  rewrite Hla, Hacc, Hll, Hloss. reflexivity.
Qed.

(** The call to [CreateMetrics] is always recorded, right after the fetch. *)
Lemma process_trial_evaluate_entry (t trial : Trial) (s : St W) (w : W)
    (b r : pyvalue) (n : Z) :
  get_trial env (name t) (world s) = (Ok trial, w) ->
  is_terminal (state trial) = false ->
  assigned "batch_size" (parameters trial) (batch_size s) = Some b ->
  assigned "learning_rate" (parameters trial) (learning_rate s) = Some r ->
  py_int b = Ok n ->
  exists st rest,
    trace (snd (process_trial env cfg t s))
    = trace s
      ++ (GetTrial (name t), Returned)
         :: (Evaluate (name t) n r (EPOCHS cfg) (STUDY_DISPLAY_NAME cfg), st)
         :: rest.
Proof.
  intros Hget Hterm Hb Hr Hn.
  rewrite (process_trial_reaches_evaluation t trial s w _ b r n
             (last_segment_spec _) Hget Hterm Hb Hr Hn).
  set (s1 := at_evaluation s w t (last_segment (name t)) b r).
  unfold bind at 1.
  pose proof (CreateMetrics_trace (name t) n r (EPOCHS cfg)
                (STUDY_DISPLAY_NAME cfg) s1) as HT.
  destruct (CreateMetrics env cfg (name t) n r (EPOCHS cfg)
              (STUDY_DISPLAY_NAME cfg) s1) as [[m|e] s2]; simpl in HT.
  - assert (Hrest : sound
        (bind (remote (AddTrialMeasurement (name t) m)
                 (add_trial_measurement env (name t) m))
              (fun _ => remote (CompleteTrial (name t) false)
                          (complete_trial env (name t) false)))).
    { apply sound_bind; [apply sound_remote; discriminate|intros _].
      apply sound_remote. intros k H. discriminate H. }
    destruct (Hrest s2) as (rest & E & _).
    exists Returned, rest. rewrite E, HT. unfold s1, at_evaluation. simpl.
    now rewrite <- !app_assoc.
  - exists (Failed e), []. simpl. rewrite HT. unfold s1, at_evaluation.
    simpl. now rewrite <- !app_assoc.
Qed.

(** A trial that is not terminal, when every call returns. *)
Lemma process_trial_returns (t trial : Trial) (s : St W) (w w2 w3 w4 : W)
    (b r : pyvalue) (n : Z) (h : History) (la ll : list pyvalue)
    (acc loss : pyvalue) :
  get_trial env (name t) (world s) = (Ok trial, w) ->
  is_terminal (state trial) = false ->
  assigned "batch_size" (parameters trial) (batch_size s) = Some b ->
  assigned "learning_rate" (parameters trial) (learning_rate s) = Some r ->
  py_int b = Ok n ->
  model_fit env n r (EPOCHS cfg) (log_dir cfg (name t)) w = (Ok h, w2) ->
  py_getitem "val_accuracy" h = Ok la -> py_last la = Ok acc ->
  py_getitem "val_loss" h = Ok ll -> py_last ll = Ok loss ->
  add_trial_measurement env (name t) [accuracy_metric acc] w2 = (Ok tt, w3) ->
  complete_trial env (name t) false w3 = (Ok tt, w4) ->
  process_trial env cfg t s =
  (Ok tt,
   {| world := w4;
      trace := trace s ++
        [ (GetTrial (name t), Returned);
          (Evaluate (name t) n r (EPOCHS cfg) (STUDY_DISPLAY_NAME cfg),
           Returned);
          (AddTrialMeasurement (name t) [accuracy_metric acc], Returned);
          (CompleteTrial (name t) false, Returned) ];
      trial_id := PyStr (last_segment (name t));
      batch_size := Some b;
      learning_rate := Some r |}).
Proof.
  intros Hget Hterm Hb Hr Hn Hfit Hla Hacc Hll Hloss Hadd Hdone.
  rewrite (process_trial_reaches_evaluation t trial s w _ b r n
             (last_segment_spec _) Hget Hterm Hb Hr Hn).
  unfold bind at 1.
  rewrite (CreateMetrics_returns (name t) n r (EPOCHS cfg) _ h w2 la acc
             ll loss); [|exact Hfit|assumption..].
  unfold bind, remote. simpl. rewrite Hadd. simpl. rewrite Hdone. simpl.
  unfold record_call, with_world, at_evaluation. simpl.
  rewrite <- !app_assoc. reflexivity.
Qed.

(** A trial that is terminal: it is fetched and nothing else happens. *)
Lemma process_trial_skips (t trial : Trial) (s : St W) (w : W) :
  get_trial env (name t) (world s) = (Ok trial, w) ->
  is_terminal (state trial) = true ->
  process_trial env cfg t s =
  (Ok tt,
   {| world := w;
      trace := trace s ++ [(GetTrial (name t), Returned)];
      trial_id := PyStr (last_segment (name t));
      batch_size := batch_size s;
      learning_rate := learning_rate s |}).
Proof.
  intros Hget Hterm.
  unfold process_trial, bind, lift, set_trial_id, remote.
  rewrite last_segment_spec. simpl. rewrite Hget. simpl. rewrite Hterm.
  reflexivity.
Qed.

End OneTrial.

(** ** Claims about one suggested trial *)





(** C10. For a processed trial the measurement sent to the optimizer is
    one metric, named "accuracy", whose value is the last element of the
    ["val_accuracy"] history of the training run: the validation accuracy
    of the final epoch.  Nothing else of the history enters the
    measurement, and no evaluation on the test set takes place. *)
Theorem reported_measurement {W : Type} (env : Env W) (cfg : Config)
    (t trial : Trial) (s : St W) (w w2 : W) (b r : pyvalue) (n : Z)
    (h : History) (earlier ll : list pyvalue) (acc loss : pyvalue) :
  get_trial env (name t) (world s) = (Ok trial, w) ->
  is_terminal (state trial) = false ->
  assigned "batch_size" (parameters trial) (batch_size s) = Some b ->
  assigned "learning_rate" (parameters trial) (learning_rate s) = Some r ->
  py_int b = Ok n ->
  model_fit env n r (EPOCHS cfg) (log_dir cfg (name t)) w = (Ok h, w2) ->
  py_getitem "val_accuracy" h = Ok (earlier ++ [acc]) ->
  py_getitem "val_loss" h = Ok ll -> py_last ll = Ok loss ->
  exists st rest,
    trace (snd (process_trial env cfg t s))
    = trace s ++
      (GetTrial (name t), Returned)
      :: (Evaluate (name t) n r (EPOCHS cfg) (STUDY_DISPLAY_NAME cfg),
          Returned)
      :: (AddTrialMeasurement (name t)
            [ {| metric_id := "accuracy"; metric_value := acc |} ], st)
      :: rest.
Proof.
  intros Hget Hterm Hb Hr Hn Hfit Hla Hll Hloss.
  rewrite (process_trial_reaches_evaluation env cfg t trial s w _ b r n
             (last_segment_spec _) Hget Hterm Hb Hr Hn).
  unfold bind at 1.
  rewrite (CreateMetrics_returns env cfg (name t) n r (EPOCHS cfg) _ h w2
             (earlier ++ [acc]) acc ll loss);
    [|exact Hfit|assumption|apply py_last_app|assumption..].
  unfold bind, remote. simpl.
  destruct (add_trial_measurement env (name t) [accuracy_metric acc] w2)
    as [[[]|e] w3]; simpl.
  - destruct (complete_trial env (name t) false w3) as [res w4]. simpl.
    exists Returned, [(CompleteTrial (name t) false, status_of res)].
    now rewrite <- !app_assoc.
  - exists (Failed e), []. now rewrite <- !app_assoc.
Qed.

Lemma reported_measurement_witness :
  exists st rest,
    trace (snd (process_trial (scripted fresh_study) notebook_config
                  (first_trial "PENDING") (initial_state 0%nat)))
    = (GetTrial (trial_name_of 1), Returned)
      :: (Evaluate (trial_name_of 1) 32 (PyFloat float_0_001) 2
            (STUDY_DISPLAY_NAME notebook_config), Returned)
      :: (AddTrialMeasurement (trial_name_of 1)
            [ {| metric_id := "accuracy";
                 metric_value := PyFloat float_0_9 |} ], st)
      :: rest.
Proof.
  apply (reported_measurement (scripted fresh_study) notebook_config
           (first_trial "PENDING") (first_trial "PENDING")
           (initial_state 0%nat) 0%nat 0%nat
           (PyFloat 32) (PyFloat float_0_001) 32
           (history_with [PyFloat (4 # 5); PyFloat float_0_9])
           [PyFloat (4 # 5)] [PyFloat (1 # 2); PyFloat (1 # 3)]
           (PyFloat float_0_9) (PyFloat (1 # 3)));
    reflexivity.
Defined.

(** C4 (as the code has it). Besides [trial_id] the loop keeps the
    variables [batch_size] and [learning_rate] from one iteration to the
    next.  For a processed trial whose parameters assign both, the
    arguments of the evaluation function are those of the trial itself:
    whatever the variables held before, the same call is made. *)
Theorem evaluation_depends_on_own_parameters {W : Type} (env : Env W)
    (cfg : Config) (t trial1 trial2 : Trial) (s1 s2 : St W) (w1 w2 : W)
    (b r : pyvalue) (n : Z) :
  get_trial env (name t) (world s1) = (Ok trial1, w1) ->
  get_trial env (name t) (world s2) = (Ok trial2, w2) ->
  is_terminal (state trial1) = false ->
  is_terminal (state trial2) = false ->
  parameters trial1 = parameters trial2 ->
  param_value "batch_size" (parameters trial1) = Some b ->
  param_value "learning_rate" (parameters trial1) = Some r ->
  py_int b = Ok n ->
  let c := Evaluate (name t) n r (EPOCHS cfg) (STUDY_DISPLAY_NAME cfg) in
  (exists st rest,
     trace (snd (process_trial env cfg t s1))
     = trace s1 ++ (GetTrial (name t), Returned) :: (c, st) :: rest) /\
  (exists st rest,
     trace (snd (process_trial env cfg t s2))
     = trace s2 ++ (GetTrial (name t), Returned) :: (c, st) :: rest).
Proof.
  intros Hg1 Hg2 Ht1 Ht2 Hps Hb Hr Hn c. split.
  - apply (process_trial_evaluate_entry env cfg t trial1 s1 w1 b r n);
      try assumption; unfold assigned; [now rewrite Hb|now rewrite Hr].
  - apply (process_trial_evaluate_entry env cfg t trial2 s2 w2 b r n);
      try assumption; unfold assigned; rewrite <- Hps;
      [now rewrite Hb|now rewrite Hr].
Qed.

Lemma evaluation_depends_on_own_parameters_witness :
  let c := Evaluate (trial_name_of 1) 32 (PyFloat float_0_001) 2
             (STUDY_DISPLAY_NAME notebook_config) in
  (exists st rest,
     trace (snd (process_trial (scripted fresh_study) notebook_config
                   (first_trial "PENDING") (initial_state 0%nat)))
     = (GetTrial (trial_name_of 1), Returned) :: (c, st) :: rest) /\
  (exists st rest,
     trace (snd (process_trial (scripted fresh_study) notebook_config
                   (first_trial "PENDING") later_state))
     = (GetTrial (trial_name_of 1), Returned) :: (c, st) :: rest).
Proof.
  apply (evaluation_depends_on_own_parameters (scripted fresh_study)
           notebook_config (first_trial "PENDING") (first_trial "PENDING")
           (first_trial "PENDING") (initial_state 0%nat) later_state
           0%nat 0%nat (PyFloat 32) (PyFloat float_0_001) 32);
    reflexivity.
Defined.

(** C4 (as stated) fails: two studies whose second trial is the same, with
    a learning rate and no batch size, and whose first trials differ in
    batch size. The second trial is evaluated with the batch size of the
    first one. *)
Lemma evaluation_reuses_earlier_batch_size :
  lookup (study_missing_batch_size 16) (trial_name_of 2)
  = lookup (study_missing_batch_size 64) (trial_name_of 2) /\
  In (Evaluate (trial_name_of 2) 16 (PyFloat float_0_001) 2
        (STUDY_DISPLAY_NAME notebook_config), Returned)
     (trace (snd (run (study_missing_batch_size 16) notebook_config 5))) /\
  In (Evaluate (trial_name_of 2) 64 (PyFloat float_0_001) 2
        (STUDY_DISPLAY_NAME notebook_config), Returned)
     (trace (snd (run (study_missing_batch_size 64) notebook_config 5))).
Proof.
  split; [reflexivity|].
  split; vm_compute; tauto.
Qed.

(** ** The loop *)

Section Loop.

Context {W : Type} (env : Env W) (cfg : Config).

(** The only normal exit is the loop test. *)
Lemma trial_loop_exit (fuel : nat) (s s' : St W) :
  trial_loop env cfg fuel s = (Finished (Ok tt), s') ->
  exists v, py_int (trial_id s') = Ok v /\ max_trial_id_to_stop cfg <= v.
Proof.
  revert s. induction fuel as [|fuel IH]; intros s; simpl; [discriminate|].
  destruct (py_int (trial_id s)) as [v|e] eqn:Ev; [|discriminate].
  destruct (v <? max_trial_id_to_stop cfg) eqn:Elt.
  - destruct (loop_body env cfg s) as [[[]|e] s1]; [apply IH|discriminate].
  - intros H. injection H as <-. exists v. split; [exact Ev|].
    apply Z.ltb_ge. exact Elt.
Qed.

Lemma trial_loop_more_fuel (fuel : nat) (s s' : St W) (r : result unit) :
  trial_loop env cfg fuel s = (Finished r, s') ->
  trial_loop env cfg (S fuel) s = (Finished r, s').
Proof.
  revert s. induction fuel as [|fuel IH]; intros s; [discriminate|].
  intros H. simpl in H. change (trial_loop env cfg (S (S fuel)) s) with
    (match py_int (trial_id s) with
     | Raise e => (Finished (Raise e), s)
     | Ok v =>
         if v <? max_trial_id_to_stop cfg then
           match loop_body env cfg s with
           | (Ok _, s1) => trial_loop env cfg (S fuel) s1
           | (Raise e, s1) => (Finished (Raise e), s1)
           end
         else (Finished (Ok tt), s)
     end).
  destruct (py_int (trial_id s)) as [v|e]; [|exact H].
  destruct (v <? max_trial_id_to_stop cfg); [|exact H].
  destruct (loop_body env cfg s) as [[[]|e] s1]; [apply IH|]; exact H.
Qed.

Lemma trial_loop_enough_fuel (fuel fuel' : nat) (s s' : St W)
    (r : result unit) :
  trial_loop env cfg fuel s = (Finished r, s') ->
  (fuel <= fuel')%nat ->
  trial_loop env cfg fuel' s = (Finished r, s').
Proof.
  intros H Hle. induction Hle as [|m Hle IH]; [exact H|].
  now apply trial_loop_more_fuel.
Qed.

(** An empty response: the request is recorded and nothing else changes. *)
Lemma loop_body_empty_batch (s : St W) (w : W) :
  suggest_trials env (STUDY_ID cfg) (suggestion_count_per_request cfg)
    (client_id cfg) (world s) = (Ok [], w) ->
  loop_body env cfg s =
  (Ok tt,
   record_call (SuggestTrials (STUDY_ID cfg)
                  (suggestion_count_per_request cfg) (client_id cfg))
     Returned (with_world w s)).
Proof.
  intros H. unfold loop_body, bind, remote. rewrite H. reflexivity.
Qed.

(** Termination by the trial number: if, under an invariant, every
    iteration returns and leaves a larger trial number, the loop halts. *)
Lemma trial_loop_terminates (I : St W -> Prop) :
  (forall s v, I s -> py_int (trial_id s) = Ok v ->
               v < max_trial_id_to_stop cfg ->
     exists s' v', loop_body env cfg s = (Ok tt, s') /\ I s' /\
                   py_int (trial_id s') = Ok v' /\ v < v') ->
  forall m s v, I s -> py_int (trial_id s) = Ok v ->
    (Z.to_nat (max_trial_id_to_stop cfg - v) <= m)%nat ->
    exists s' v', I s' /\ py_int (trial_id s') = Ok v' /\
                  max_trial_id_to_stop cfg <= v' /\
                  forall fuel, (m < fuel)%nat ->
                    trial_loop env cfg fuel s = (Finished (Ok tt), s').
Proof.
  intros Hstep. induction m as [|m IH]; intros s v HI Hv Hm.
  - exists s, v. repeat split; try assumption; [lia|].
    intros [|fuel] Hf; [lia|]. simpl. rewrite Hv.
    destruct (Z.ltb_spec v (max_trial_id_to_stop cfg)); [lia|reflexivity].
  - destruct (Z.ltb_spec v (max_trial_id_to_stop cfg)) as [Hlt|Hge].
    + destruct (Hstep s v HI Hv Hlt) as (s1 & v1 & Hbody & HI1 & Hv1 & Hgt).
      destruct (IH s1 v1 HI1 Hv1 ltac:(lia)) as (s' & v' & HI' & Hv' & Hmax & Hrun).
      exists s', v'. repeat split; try assumption.
      intros [|fuel] Hf; [lia|]. simpl. rewrite Hv.
      destruct (Z.ltb_spec v (max_trial_id_to_stop cfg)); [|lia].
      rewrite Hbody. apply Hrun. lia.
    + exists s, v. repeat split; try assumption.
      intros [|fuel] Hf; [lia|]. simpl. rewrite Hv.
      destruct (Z.ltb_spec v (max_trial_id_to_stop cfg)); [lia|reflexivity].
Qed.

End Loop.



(** The loop on a study that has nothing left to suggest. *)
Lemma exhausted_study_loop (fuel : nat) :
  forall (w : nat) (tr : list entry),
    trial_loop (scripted exhausted_study) notebook_config fuel
      {| world := w; trace := tr; trial_id := PyInt 0;
         batch_size := Some (PyInt 32); learning_rate := None |}
    = (OutOfFuel,
       {| world := (fuel + w)%nat;
          trace := tr ++ repeat
                     (SuggestTrials (STUDY_ID notebook_config) 1 "client_pcam",
                      Returned) fuel;
          trial_id := PyInt 0;
          batch_size := Some (PyInt 32); learning_rate := None |}).
Proof.
  induction fuel as [|fuel IH]; intros w tr.
  - simpl. now rewrite app_nil_r.
  - change (trial_loop (scripted exhausted_study) notebook_config (S fuel)
              {| world := w; trace := tr; trial_id := PyInt 0;
                 batch_size := Some (PyInt 32); learning_rate := None |})
      with (trial_loop (scripted exhausted_study) notebook_config fuel
              {| world := S w;
                 trace := tr ++ [(SuggestTrials (STUDY_ID notebook_config) 1
                                    "client_pcam", Returned)];
                 trial_id := PyInt 0;
                 batch_size := Some (PyInt 32); learning_rate := None |}).
    rewrite IH. rewrite <- app_assoc. simpl.
    now rewrite Nat.add_succ_r.
Qed.

Lemma count_repeat (p : entry -> bool) (e : entry) (n : nat) :
  p e = true -> count p (repeat e n) = n.
Proof.
  intros H. unfold count. induction n as [|n IH]; simpl; [reflexivity|].
  rewrite H. simpl. now rewrite IH.
Qed.


(** ** Runs against a study that numbers its trials from 1 *)

Section Scripted.

Context {W : Type} (env : Env W) (cfg : Config).
Context (issued : W -> nat) (trial_of : nat -> Trial)
        (acc_of : nat -> pyvalue).
Hypothesis script : follows_script env cfg issued trial_of acc_of.

Lemma trial_number_last_segment (n : string) :
  trial_number n = int_of_string (last_segment n).
Proof. unfold trial_number. now rewrite last_segment_spec. Qed.

Lemma process_trial_same_name (t t' : Trial) (s : St W) :
  name t = name t' ->
  process_trial env cfg t s = process_trial env cfg t' s.
Proof. intros H. unfold process_trial, CreateMetrics_args. now rewrite H. Qed.

(** One iteration: the next trial is suggested, fetched and, unless it is
    terminal, evaluated, reported and completed. *)
Lemma loop_body_scripted (s : St W) (k : nat) :
  issued (world s) = k -> (k < ceiling cfg)%nat ->
  exists s',
    loop_body env cfg s = (Ok tt, s') /\
    issued (world s') = S k /\
    py_int (trial_id s') = Ok (Z.of_nat (S k)) /\
    trace s' = trace s ++ iteration_entries cfg trial_of acc_of (S k).
Proof.
  intros Hk Hlt.
  destruct (fs_suggest _ _ _ _ _ script (world s) ltac:(lia))
    as (t & w1 & Hsug & Hname & Hw1).
  rewrite Hk in Hname, Hw1.
  assert (Hrange : (1 <= S k <= ceiling cfg)%nat) by lia.
  destruct (fs_get _ _ _ _ _ script w1 ltac:(lia)) as (w2 & Hget & Hw2).
  rewrite Hw1 in Hget, Hw2.
  pose proof (fs_number _ _ _ _ _ script (S k) Hrange) as Hnum.
  rewrite trial_number_last_segment in Hnum.
  set (s1 := record_call
               (SuggestTrials (STUDY_ID cfg)
                  (suggestion_count_per_request cfg) (client_id cfg))
               Returned (with_world w1 s)).
  assert (Hbody : loop_body env cfg s
                  = bind (process_trial env cfg (trial_of (S k)))
                         (fun _ => ret tt) s1).
  { unfold loop_body, bind at 1, remote. rewrite Hsug. simpl.
    unfold bind.
    now rewrite (process_trial_same_name t (trial_of (S k)) _ Hname). }
  rewrite Hbody. unfold bind, iteration_entries.
  destruct (is_terminal (state (trial_of (S k)))) eqn:Hterm.
  - rewrite (process_trial_skips env cfg _ (trial_of (S k)) s1 w2 Hget Hterm).
    eexists. split; [reflexivity|]. simpl.
    repeat split; [exact Hw2|exact Hnum|now rewrite <- app_assoc].
  - destruct (fs_params _ _ _ _ _ script (S k) Hrange Hterm)
      as (b & r & n & Hb & Hr & Hn).
    destruct (fs_fit _ _ _ _ _ script w2 n r (EPOCHS cfg)
                (log_dir cfg (name (trial_of (S k)))))
      as (h & w3 & la & ll & loss & Hfit & Hw3 & Hla & Hacc & Hll & Hloss).
    rewrite Hw2 in Hacc.
    destruct (fs_add _ _ _ _ _ script w3 (name (trial_of (S k)))
                [accuracy_metric (acc_of (S k))]) as (w4 & Hadd & Hw4).
    destruct (fs_complete _ _ _ _ _ script w4 (name (trial_of (S k))))
      as (w5 & Hdone & Hw5).
    rewrite (process_trial_returns env cfg _ (trial_of (S k)) s1 w2 w3 w4 w5
               b r n h la ll (acc_of (S k)) loss Hget Hterm);
      try assumption; unfold assigned; try (now rewrite Hb);
      try (now rewrite Hr).
    eexists. split; [reflexivity|]. simpl. rewrite Hb, Hr, Hn.
    repeat split; [congruence|exact Hnum|now rewrite <- app_assoc].
Qed.

(** The whole run, from the point where [k] trials have been issued. *)
Lemma trial_loop_scripted (d : nat) :
  forall (s : St W) (k : nat),
    issued (world s) = k -> py_int (trial_id s) = Ok (Z.of_nat k) ->
    (k + d = ceiling cfg)%nat ->
    exists s',
      trial_loop env cfg (S d) s = (Finished (Ok tt), s') /\
      trace s' = trace s
                 ++ flat_map (iteration_entries cfg trial_of acc_of)
                      (seq (S k) d).
Proof.
  unfold ceiling.
  induction d as [|d IH]; intros s k Hk Hid Hsum.
  - exists s. simpl. rewrite Hid.
    destruct (Z.ltb_spec (Z.of_nat k) (max_trial_id_to_stop cfg)); [lia|].
    now rewrite app_nil_r.
  - destruct (loop_body_scripted s k Hk) as (s1 & Hbody & Hk1 & Hid1 & Htr1);
      [unfold ceiling; lia|].
    destruct (IH s1 (S k) Hk1 Hid1 ltac:(lia)) as (s' & Hrun & Htr).
    exists s'. split.
    + change (trial_loop env cfg (S (S d)) s) with
        (match py_int (trial_id s) with
         | Raise e => (Finished (Raise e), s)
         | Ok v =>
             if v <? max_trial_id_to_stop cfg then
               match loop_body env cfg s with
               | (Ok _, s2) => trial_loop env cfg (S d) s2
               | (Raise e, s2) => (Finished (Raise e), s2)
               end
             else (Finished (Ok tt), s)
         end).
      rewrite Hid.
      destruct (Z.ltb_spec (Z.of_nat k) (max_trial_id_to_stop cfg)); [|lia].
      rewrite Hbody. exact Hrun.
    + rewrite Htr, Htr1. simpl. now rewrite <- app_assoc.
Qed.

Lemma count_app (p : entry -> bool) (t1 t2 : list entry) :
  count p (t1 ++ t2) = (count p t1 + count p t2)%nat.
Proof. unfold count. now rewrite filter_app, length_app. Qed.

Lemma count_iterations (p : entry -> bool) (q : nat -> bool) (l : list nat) :
  (forall k, In k l ->
     count p (iteration_entries cfg trial_of acc_of k)
     = if q k then 1%nat else 0%nat) ->
  count p (flat_map (iteration_entries cfg trial_of acc_of) l)
  = List.length (filter q l).
Proof.
  intros H. induction l as [|k l IH]; [reflexivity|].
  cbn [flat_map filter]. rewrite count_app, IH, (H k).
  - destruct (q k); reflexivity.
  - now left.
  - intros k' Hin. apply H. now right.
Qed.

Lemma iteration_entries_processed (k : nat) :
  (1 <= k <= ceiling cfg)%nat ->
  count is_suggest (iteration_entries cfg trial_of acc_of k) = 1%nat /\
  count is_evaluate (iteration_entries cfg trial_of acc_of k)
  = (if is_processed trial_of k then 1 else 0)%nat /\
  count is_complete (iteration_entries cfg trial_of acc_of k)
  = (if is_processed trial_of k then 1 else 0)%nat.
Proof.
  intros Hrange. unfold iteration_entries, is_processed.
  destruct (is_terminal (state (trial_of k))) eqn:Hterm; simpl.
  - repeat split.
  - destruct (fs_params _ _ _ _ _ script k Hrange Hterm)
      as (b & r & n & -> & -> & ->).
    repeat split.
Qed.

End Scripted.

Lemma filter_all {A : Type} (l : list A) : filter (fun _ => true) l = l.
Proof. induction l as [|x l IH]; simpl; [reflexivity|now rewrite IH]. Qed.


(** The scripted studies that number their trials from 1 follow the
    script, under the notebook's ceiling of 2. *)
Lemma study_follows_script (state_of : nat -> string) :
  follows_script (scripted (study 1 state_of usual_params fit_0_9))
    notebook_config (fun w => w)
    (fun k => {| name := trial_name_of k; state := state_of k;
                 parameters := usual_params k |})
    (fun _ => PyFloat float_0_9).
Proof.
  constructor.
  - intros k Hk. change (ceiling notebook_config) with 2%nat in Hk.
    destruct k as [|[|[|k]]]; [lia|reflexivity|reflexivity|lia].
  - intros w Hw. eexists _, (S w). repeat split.
  - intros w Hw. change (ceiling notebook_config) with 2%nat in Hw.
    exists w. destruct w as [|[|[|w]]]; [lia| | |lia]; repeat split.
  - intros k _ _. exists (PyFloat 32), (PyFloat float_0_001), 32.
    repeat split.
  - intros w b r e d.
    exists (history_with [PyFloat (4 # 5); PyFloat float_0_9]), w,
           [PyFloat (4 # 5); PyFloat float_0_9],
           [PyFloat (1 # 2); PyFloat (1 # 3)], (PyFloat (1 # 3)).
    repeat split.
  - intros w n m. exists w. split; reflexivity.
  - intros w n. exists w. split; reflexivity.
Defined.






(** ** The shape of a run's trace *)

Section Shape.

Context {W : Type} (env : Env W) (cfg : Config).

Lemma loop_trace_app (t1 t2 : list entry) :
  loop_trace cfg t1 -> loop_trace cfg t2 -> loop_trace cfg (t1 ++ t2).
Proof.
  intros H1 H2. induction H1 as [|st t H IH|n blk t Hb H IH]; simpl.
  - exact H2.
  - now constructor.
  - rewrite <- app_assoc. econstructor; eassumption.
Qed.

Lemma loop_trace_one_block (n : string) (blk : list entry) :
  trial_block cfg n blk -> loop_trace cfg blk.
Proof.
  intros H. rewrite <- (app_nil_r blk).
  econstructor; [exact H|constructor].
Qed.

(** [CreateMetrics_body] touches the world only, and what it returns is a
    one-element list with the accuracy. *)
Lemma CreateMetrics_body_frame n b r e d (s : St W) :
  (exists w, snd (CreateMetrics_body env cfg n b r e d s) = with_world w s) /\
  (forall m, fst (CreateMetrics_body env cfg n b r e d s) = Ok m ->
             exists v, m = [accuracy_metric v]).
Proof.
  unfold CreateMetrics_body, run_model_training, bind, lift, ret.
  rewrite last_segment_spec. cbv beta iota.
  match goal with
  | |- context [model_fit env b r e ?d0 (world s)] =>
      destruct (model_fit env b r e d0 (world s)) as [[h|x] w]
  end; [|simpl; split; [now exists w|intros m H; discriminate H]].
  destruct (py_getitem "val_accuracy" h) as [la|x];
    [|simpl; split; [now exists w|intros m H; discriminate H]].
  destruct (py_last la) as [acc|x];
    [|simpl; split; [now exists w|intros m H; discriminate H]].
  destruct (py_getitem "val_loss" h) as [ll|x];
    [|simpl; split; [now exists w|intros m H; discriminate H]].
  destruct (py_last ll) as [loss|x];
    [|simpl; split; [now exists w|intros m H; discriminate H]].
  simpl. split; [now exists w|]. intros m H. injection H as <-. now exists acc.
Qed.

Lemma process_trial_shape_aux (t : Trial) (s : St W) (res : result unit * St W) :
  res = process_trial env cfg t s ->
  exists blk,
    trace (snd res) = trace s ++ blk /\
    trial_block cfg (name t) blk /\
    trial_id (snd res) = PyStr (last_segment (name t)).
Proof.
  unfold process_trial, bind at 1, lift. rewrite last_segment_spec.
  unfold bind at 1, set_trial_id. unfold bind at 1, remote at 1. simpl.
  destruct (get_trial env (name t) (world s)) as [[trial|x] w]; simpl;
    [|intros ->; eexists; repeat split; constructor].
  destruct (is_terminal (state trial));
    [intros ->; eexists; repeat split; constructor|].
  unfold bind at 1. rewrite assign_parameters_spec. simpl.
  unfold bind at 1, read_var at 1. simpl.
  destruct (assigned "batch_size" (parameters trial) (batch_size s))
    as [b|]; [|intros ->; eexists; repeat split; constructor].
  unfold bind at 1, read_var at 1. simpl.
  destruct (assigned "learning_rate" (parameters trial) (learning_rate s))
    as [r|]; [|intros ->; eexists; repeat split; constructor].
  unfold bind at 1, CreateMetrics_args, bind at 1, read_var at 1. simpl.
  unfold bind at 1, lift.
  destruct (py_int b) as [n|x];
    [|intros ->; eexists; repeat split; constructor].
  unfold bind at 1, read_var at 1. simpl.
  unfold bind at 1, CreateMetrics.
  match goal with
  | |- context [CreateMetrics_body env cfg ?a ?b ?c ?d ?e ?s0] =>
      destruct (CreateMetrics_body_frame a b c d e s0) as [[w2 Hw] Hm];
      destruct (CreateMetrics_body env cfg a b c d e s0) as [[m|x] s2]
  end; simpl in Hw; subst s2; simpl.
  - destruct (Hm m eq_refl) as [v ->].
    unfold bind, remote. simpl.
    destruct (add_trial_measurement env (name t) [accuracy_metric v] w2)
      as [[[]|x] w3]; simpl.
    + destruct (complete_trial env (name t) false w3) as [res' w4].
      intros ->. simpl.
      eexists. rewrite <- !app_assoc. simpl.
      repeat split. apply block_completed.
    + intros ->. simpl. eexists. rewrite <- !app_assoc. simpl.
      repeat split. apply block_reported.
  - intros ->. simpl. eexists. rewrite <- !app_assoc. simpl.
    repeat split. apply block_evaluated.
Qed.

(** One suggested trial: the calls form a block for its name, and
    [trial_id] is left at the last segment of that name, whatever
    happens. *)
Lemma process_trial_shape (t : Trial) (s : St W) :
  exists blk,
    trace (snd (process_trial env cfg t s)) = trace s ++ blk /\
    trial_block cfg (name t) blk /\
    trial_id (snd (process_trial env cfg t s))
    = PyStr (last_segment (name t)).
Proof. now apply process_trial_shape_aux. Qed.

Lemma for_each_shape (trials : list Trial) (s : St W) :
  exists t,
    trace (snd (for_each (process_trial env cfg) trials s)) = trace s ++ t /\
    loop_trace cfg t.
Proof.
  revert s. induction trials as [|x trials IH]; intros s; simpl.
  - exists []. split; [now rewrite app_nil_r|constructor].
  - unfold bind.
    destruct (process_trial_shape x s) as (blk & E & B & _).
    destruct (process_trial env cfg x s) as [[[]|e] s1]; simpl in E.
    + destruct (IH s1) as (t & E' & L).
      exists (blk ++ t). split; [now rewrite E', E, app_assoc|].
      econstructor; eassumption.
    + exists blk. split; [exact E|]. now apply loop_trace_one_block with (name x).
Qed.

Lemma loop_body_shape (s : St W) :
  exists t,
    trace (snd (loop_body env cfg s)) = trace s ++ t /\ loop_trace cfg t.
Proof.
  unfold loop_body, bind, remote.
  destruct (suggest_trials env _ _ _ (world s)) as [[trials|e] w]; simpl.
  - match goal with
    | |- context [for_each _ trials ?s0] =>
        destruct (for_each_shape trials s0) as (t & E & L)
    end.
    eexists. split; [rewrite E; simpl; now rewrite <- app_assoc|].
    simpl. now constructor.
  - eexists. split; [reflexivity|]. repeat constructor.
Qed.

(** Whatever the study and the backend do, a run adds to the trace only
    suggestion requests for the configured study and blocks of calls for
    suggested trials. *)
Lemma trial_loop_shape (fuel : nat) (s : St W) :
  exists t,
    trace (snd (trial_loop env cfg fuel s)) = trace s ++ t /\
    loop_trace cfg t.
Proof.
  revert s. induction fuel as [|fuel IH]; intros s; simpl.
  - exists []. split; [now rewrite app_nil_r|constructor].
  - destruct (py_int (trial_id s)) as [v|e]; simpl;
      [|exists []; split; [now rewrite app_nil_r|constructor]].
    destruct (v <? max_trial_id_to_stop cfg);
      [|exists []; split; [now rewrite app_nil_r|constructor]].
    destruct (loop_body_shape s) as (t1 & E1 & L1).
    destruct (loop_body env cfg s) as [[[]|e] s1]; simpl in E1.
    + destruct (IH s1) as (t2 & E2 & L2).
      exists (t1 ++ t2). split; [now rewrite E2, E1, app_assoc|].
      now apply loop_trace_app.
    + exists t1. now split.
Qed.

End Shape.

(** ** Order of the calls in a run *)

Section Order.

Context {W : Type} (env : Env W) (cfg : Config).

Lemma loop_trace_each_after (Q : entry -> list entry -> Prop) :
  (forall x l pre, Q x pre -> Q x (l ++ pre)) ->
  (forall st,
     Q (SuggestTrials (STUDY_ID cfg) (suggestion_count_per_request cfg)
          (client_id cfg), st) []) ->
  (forall n blk, trial_block cfg n blk -> each_after Q blk) ->
  forall t, loop_trace cfg t -> each_after Q t.
Proof.
  intros Hmono Hsug Hblk t H.
  induction H as [|st t H IH|n blk t Hb H IH]; intros pre x post E.
  - destruct pre; discriminate E.
  - destruct pre as [|y pre]; simpl in E.
    + injection E as <- _. apply Hsug.
    + injection E as _ E. apply (Hmono x [y] pre). eapply IH. exact E.
  - apply app_eq_app in E as [l [[E1 E2]|[E1 E2]]].
    + destruct l as [|y l]; simpl in E2.
      * rewrite app_nil_r in E1. subst blk.
        rewrite <- (app_nil_r pre). apply Hmono.
        apply (IH [] x post). now rewrite <- E2.
      * injection E2 as <- E2. eapply Hblk; [exact Hb|exact E1].
    + subst pre. apply Hmono. eapply IH. exact E2.
Qed.

(** Where an entry can sit in a block. *)
Ltac positions E pre :=
  destruct pre as [|? [|? [|? [|? pre]]]]; simpl in E;
  inversion E; subst; clear E;
  try match goal with
      | H : [] = _ ++ _ :: _ |- _ => apply app_cons_not_nil in H; destruct H
      end.

Lemma block_has_no_suggestion (n : string) (blk : list entry) p k c st :
  trial_block cfg n blk -> ~ In (SuggestTrials p k c, st) blk.
Proof.
  intros H Hin. destruct H; simpl in Hin;
    repeat (destruct Hin as [Hin|Hin]; [discriminate Hin|]); exact Hin.
Qed.

Lemma loop_trace_suggestions (t : list entry) p k c st :
  loop_trace cfg t ->
  In (SuggestTrials p k c, st) t ->
  p = STUDY_ID cfg /\ k = suggestion_count_per_request cfg /\
  c = client_id cfg.
Proof.
  intros H. induction H as [|st' t H IH|n blk t Hb H IH]; intros Hin.
  - destruct Hin.
  - destruct Hin as [Hin|Hin]; [|now apply IH].
    injection Hin as <- <- <- _. now repeat split.
  - apply in_app_or in Hin as [Hin|Hin]; [|now apply IH].
    exfalso. eapply block_has_no_suggestion; eassumption.
Qed.

Lemma loop_trace_after_report (t : list entry) :
  loop_trace cfg t -> each_after (after_report cfg) t.
Proof.
  apply loop_trace_each_after.
  - intros x l pre H n b st Hx. destruct (H n b st Hx) as (Hb & pre' & bt & r & v & ->).
    split; [exact Hb|]. exists (l ++ pre'), bt, r, v. now rewrite app_assoc.
  - intros st n b st' Hx. discriminate Hx.
  - intros n blk Hb pre x post E n' b' st' Hx. subst x.
    destruct Hb; positions E pre.
    split; [reflexivity|]. now exists [], b, r, v.
Qed.

Lemma loop_trace_after_evaluation (t : list entry) :
  loop_trace cfg t -> each_after (after_evaluation cfg) t.
Proof.
  apply loop_trace_each_after.
  - intros x l pre H n m st Hx.
    destruct (H n m st Hx) as (pre' & bt & r & v & Hm & ->).
    exists (l ++ pre'), bt, r, v. split; [exact Hm|now rewrite app_assoc].
  - intros st n m st' Hx. discriminate Hx.
  - intros n blk Hb pre x post E n' m' st' Hx. subst x.
    destruct Hb; positions E pre; now exists [], b, r, v.
Qed.

Lemma loop_trace_after_fetch (t : list entry) :
  loop_trace cfg t -> each_after (after_fetch cfg) t.
Proof.
  apply loop_trace_each_after.
  - intros x l pre H n bt r e d st Hx.
    destruct (H n bt r e d st Hx) as (He & Hd & pre' & ->).
    repeat split; try assumption. exists (l ++ pre'). now rewrite app_assoc.
  - intros st n bt r e d st' Hx. discriminate Hx.
  - intros n blk Hb pre x post E n' bt' r' e' d' st' Hx. subst x.
    destruct Hb; positions E pre; repeat split; now exists [].
Qed.

End Order.

(** X1. Every suggestion request of a run, whatever the study answers,
    is sent for the configured study with the configured suggestion count
    and the configured client id. *)
Theorem suggestions_use_configuration {W : Type} (env : Env W) (cfg : Config)
    (fuel : nat) (s : St W) (t : list entry) (p : string) (k : Z)
    (c : string) (st : status) :
  trace (snd (trial_loop env cfg fuel s)) = trace s ++ t ->
  In (SuggestTrials p k c, st) t ->
  p = STUDY_ID cfg /\ k = suggestion_count_per_request cfg /\
  c = client_id cfg.
Proof.
  intros E Hin.
  destruct (trial_loop_shape env cfg fuel s) as (t' & E' & L).
  rewrite E' in E. apply app_inv_head in E. subst t'.
  eapply loop_trace_suggestions; eassumption.
Qed.

Lemma suggestions_use_configuration_witness :
  STUDY_ID notebook_config = STUDY_ID notebook_config /\
  1 = suggestion_count_per_request notebook_config /\
  "client_pcam" = client_id notebook_config.
Proof.
  apply (suggestions_use_configuration (scripted fresh_study) notebook_config
           5 (initial_state 0%nat)
           (trace (snd (run fresh_study notebook_config 5)))
           (STUDY_ID notebook_config) 1 "client_pcam" Returned).
  - reflexivity.
  - vm_compute. left. reflexivity.
Defined.

(** X2. In any run a completion is sent only right after the measurement
    of the same trial was reported and accepted, which itself follows the
    returned evaluation and the returned fetch of that trial: the driver
    never completes a trial it has not just evaluated and reported. *)
Theorem completion_follows_report {W : Type} (env : Env W) (cfg : Config)
    (fuel : nat) (s : St W) (pre post : list entry) (n : string) (b : bool)
    (st : status) :
  trace (snd (trial_loop env cfg fuel s))
  = trace s ++ pre ++ (CompleteTrial n b, st) :: post ->
  b = false /\
  exists pre' bt r v,
    pre = pre' ++
          [ (GetTrial n, Returned);
            (Evaluate n bt r (EPOCHS cfg) (STUDY_DISPLAY_NAME cfg), Returned);
            (AddTrialMeasurement n [accuracy_metric v], Returned) ].
Proof.
  intros E.
  destruct (trial_loop_shape env cfg fuel s) as (t & E' & L).
  rewrite E' in E. apply app_inv_head in E.
  exact (loop_trace_after_report cfg t L pre _ post E n b st eq_refl).
Qed.

Lemma completion_follows_report_witness :
  false = false /\
  exists pre' bt r v,
    firstn 4 (trace (snd (run fresh_study notebook_config 5)))
    = pre' ++
      [ (GetTrial (trial_name_of 1), Returned);
        (Evaluate (trial_name_of 1) bt r (EPOCHS notebook_config)
           (STUDY_DISPLAY_NAME notebook_config), Returned);
        (AddTrialMeasurement (trial_name_of 1) [accuracy_metric v],
         Returned) ].
Proof.
  apply (completion_follows_report (scripted fresh_study) notebook_config
           5 (initial_state 0%nat)
           (firstn 4 (trace (snd (run fresh_study notebook_config 5))))
           (skipn 5 (trace (snd (run fresh_study notebook_config 5))))
           (trial_name_of 1) false Returned).
  reflexivity.
Defined.

(** X3. In any run a measurement is reported only right after the returned
    evaluation of the same trial, and it always consists of exactly one
    metric, named "accuracy". *)
Theorem report_follows_evaluation {W : Type} (env : Env W) (cfg : Config)
    (fuel : nat) (s : St W) (pre post : list entry) (n : string)
    (m : list Metric) (st : status) :
  trace (snd (trial_loop env cfg fuel s))
  = trace s ++ pre ++ (AddTrialMeasurement n m, st) :: post ->
  exists pre' bt r v,
    m = [ {| metric_id := "accuracy"; metric_value := v |} ] /\
    pre = pre' ++
          [ (GetTrial n, Returned);
            (Evaluate n bt r (EPOCHS cfg) (STUDY_DISPLAY_NAME cfg),
             Returned) ].
Proof.
  intros E.
  destruct (trial_loop_shape env cfg fuel s) as (t & E' & L).
  rewrite E' in E. apply app_inv_head in E.
  exact (loop_trace_after_evaluation cfg t L pre _ post E n m st eq_refl).
Qed.

Lemma report_follows_evaluation_witness :
  exists pre' bt r v,
    [accuracy_metric (PyFloat float_0_9)]
    = [ {| metric_id := "accuracy"; metric_value := v |} ] /\
    firstn 3 (trace (snd (run fresh_study notebook_config 5)))
    = pre' ++
      [ (GetTrial (trial_name_of 1), Returned);
        (Evaluate (trial_name_of 1) bt r (EPOCHS notebook_config)
           (STUDY_DISPLAY_NAME notebook_config), Returned) ].
Proof.
  apply (report_follows_evaluation (scripted fresh_study) notebook_config
           5 (initial_state 0%nat)
           (firstn 3 (trace (snd (run fresh_study notebook_config 5))))
           (skipn 4 (trace (snd (run fresh_study notebook_config 5))))
           (trial_name_of 1) [accuracy_metric (PyFloat float_0_9)] Returned).
  reflexivity.
Defined.

(** X4. In any run the evaluation function is called only right after the
    returned fetch of the same trial, and always with the configured
    [EPOCHS] and [STUDY_DISPLAY_NAME]. *)
Theorem evaluation_follows_fetch {W : Type} (env : Env W) (cfg : Config)
    (fuel : nat) (s : St W) (pre post : list entry) (n : string) (bt : Z)
    (r : pyvalue) (e : Z) (d : string) (st : status) :
  trace (snd (trial_loop env cfg fuel s))
  = trace s ++ pre ++ (Evaluate n bt r e d, st) :: post ->
  e = EPOCHS cfg /\ d = STUDY_DISPLAY_NAME cfg /\
  exists pre', pre = pre' ++ [(GetTrial n, Returned)].
Proof.
  intros E.
  destruct (trial_loop_shape env cfg fuel s) as (t & E' & L).
  rewrite E' in E. apply app_inv_head in E.
  exact (loop_trace_after_fetch cfg t L pre _ post E n bt r e d st eq_refl).
Qed.

Lemma evaluation_follows_fetch_witness :
  2 = EPOCHS notebook_config /\
  STUDY_DISPLAY_NAME notebook_config = STUDY_DISPLAY_NAME notebook_config /\
  exists pre',
    firstn 2 (trace (snd (run study_with_failing_training notebook_config 5)))
    = pre' ++ [(GetTrial (trial_name_of 1), Returned)].
Proof.
  apply (evaluation_follows_fetch (scripted study_with_failing_training)
           notebook_config 5 (initial_state 0%nat)
           (firstn 2 (trace (snd (run study_with_failing_training
                                    notebook_config 5))))
           []
           (trial_name_of 1) 32 (PyFloat float_0_001) 2
           (STUDY_DISPLAY_NAME notebook_config)
           (Failed (ExternalError "ResourceExhausted"))).
  reflexivity.
Defined.

(** ** Failures inside one trial *)

(** X5. When, after the parameter loop, [batch_size] or [learning_rate]
    is unbound, the trial is abandoned with a [NameError] for that name;
    when both are bound and [int(batch_size)] raises, with that exception.
    In each case only the fetch has been made: no evaluation, no report, no
    completion, and the variables keep what the parameter loop assigned. *)
Theorem trial_abandoned_before_evaluation {W : Type} (env : Env W)
    (cfg : Config) (t trial : Trial) (s : St W) (w : W) (e : exn) :
  get_trial env (name t) (world s) = (Ok trial, w) ->
  is_terminal (state trial) = false ->
  (assigned "batch_size" (parameters trial) (batch_size s) = None /\
   e = NameError "batch_size") \/
  (assigned "batch_size" (parameters trial) (batch_size s) <> None /\
   assigned "learning_rate" (parameters trial) (learning_rate s) = None /\
   e = NameError "learning_rate") \/
  (exists b,
     assigned "batch_size" (parameters trial) (batch_size s) = Some b /\
     assigned "learning_rate" (parameters trial) (learning_rate s) <> None /\
     py_int b = Raise e) ->
  process_trial env cfg t s =
  (Raise e,
   {| world := w;
      trace := trace s ++ [(GetTrial (name t), Returned)];
      trial_id := PyStr (last_segment (name t));
      batch_size := assigned "batch_size" (parameters trial) (batch_size s);
      learning_rate :=
        assigned "learning_rate" (parameters trial) (learning_rate s) |}).
Proof.
  intros Hget Hterm Hcase.
  unfold process_trial, bind at 1, lift. rewrite last_segment_spec.
  unfold bind at 1, set_trial_id. unfold bind at 1, remote at 1. simpl.
  rewrite Hget. simpl. rewrite Hterm.
  unfold bind at 1. rewrite assign_parameters_spec. simpl.
  unfold bind at 1, read_var at 1. simpl.
  destruct Hcase as [[Hb ->]|[(Hb & Hr & ->)|(b & Hb & Hr & He)]].
  - rewrite Hb. reflexivity.
  - destruct (assigned "batch_size" (parameters trial) (batch_size s))
      as [b|]; [|contradiction].
    unfold bind at 1, read_var at 1. simpl. rewrite Hr. reflexivity.
  - rewrite Hb.
    destruct (assigned "learning_rate" (parameters trial) (learning_rate s))
      as [r|]; [|contradiction].
    unfold bind at 1, read_var at 1. simpl.
    unfold bind at 1, CreateMetrics_args, bind at 1, read_var at 1. simpl.
    unfold bind at 1, lift. rewrite He. reflexivity.
Qed.

Lemma trial_abandoned_before_evaluation_witness :
  process_trial (scripted study_missing_learning_rate) notebook_config
    (first_trial "PENDING") (initial_state 0%nat)
  = (Raise (NameError "learning_rate"),
     {| world := 0%nat;
        trace := [(GetTrial (trial_name_of 1), Returned)];
        trial_id := PyStr "1";
        batch_size := Some (PyFloat 32);
        learning_rate := None |}).
Proof.
  apply (trial_abandoned_before_evaluation
           (scripted study_missing_learning_rate) notebook_config
           (first_trial "PENDING")
           {| name := trial_name_of 1; state := "PENDING";
              parameters := [ {| parameter_id := "batch_size";
                                 value := PyFloat 32 |} ] |}
           (initial_state 0%nat) 0%nat (NameError "learning_rate")).
  - reflexivity.
  - reflexivity.
  - right. left. split; [discriminate|]. split; reflexivity.
Defined.

Lemma py_getitem_missing {A : Type} (key : string) (d : list (string * A)) :
  (forall v, ~ In (key, v) d) -> py_getitem key d = Raise (KeyError key).
Proof.
  induction d as [|[k v] d IH]; intros H; simpl; [reflexivity|].
  destruct (String.eqb_spec k key) as [->|Hne].
  - exfalso. apply (H v). now left.
  - apply IH. intros v' Hin. apply (H v'). now right.
Qed.

(** X6. The evaluation function returns exactly when the training run
    returns a history that has, under both ["val_accuracy"] and
    ["val_loss"], at least one value; what it returns is then the one
    metric [accuracy] with the last validation accuracy.  The validation
    loss must be there although its value is only printed. *)
Theorem CreateMetrics_returns_iff {W : Type} (env : Env W) (cfg : Config)
    (n : string) (b : Z) (r : pyvalue) (e : Z) (s : St W) (m : list Metric) :
  fst (CreateMetrics env cfg n b r e (STUDY_DISPLAY_NAME cfg) s) = Ok m
  <->
  exists h w la acc ll loss,
    model_fit env b r e (log_dir cfg n) (world s) = (Ok h, w) /\
    py_getitem "val_accuracy" h = Ok la /\ py_last la = Ok acc /\
    py_getitem "val_loss" h = Ok ll /\ py_last ll = Ok loss /\
    m = [accuracy_metric acc].
Proof.
  split.
  - unfold CreateMetrics, CreateMetrics_body, run_model_training, bind,
      lift, ret.
    rewrite last_segment_spec. cbv beta iota. fold (log_dir cfg n).
    destruct (model_fit env b r e (log_dir cfg n) (world s)) as [[h|x] w]
      eqn:Hfit; [|intros H; discriminate H].
    destruct (py_getitem "val_accuracy" h) as [la|x] eqn:Hla;
      [|intros H; discriminate H].
    destruct (py_last la) as [acc|x] eqn:Hacc; [|intros H; discriminate H].
    destruct (py_getitem "val_loss" h) as [ll|x] eqn:Hll;
      [|intros H; discriminate H].
    destruct (py_last ll) as [loss|x] eqn:Hloss; [|intros H; discriminate H].
    simpl. intros H. injection H as <-.
    now exists h, w, la, acc, ll, loss.
  - intros (h & w & la & acc & ll & loss & Hfit & Hla & Hacc & Hll & Hloss & ->).
    now rewrite (CreateMetrics_returns env cfg n b r e s h w la acc ll loss).
Qed.

Lemma CreateMetrics_returns_iff_witness :
  fst (CreateMetrics (scripted fresh_study) notebook_config
         (trial_name_of 1) 32 (PyFloat float_0_001) 2
         (STUDY_DISPLAY_NAME notebook_config) (initial_state 0%nat))
  = Ok [accuracy_metric (PyFloat float_0_9)].
Proof.
  apply (proj2 (CreateMetrics_returns_iff (scripted fresh_study)
                  notebook_config (trial_name_of 1) 32 (PyFloat float_0_001)
                  2 (initial_state 0%nat)
                  [accuracy_metric (PyFloat float_0_9)])).
  exists (history_with [PyFloat (4 # 5); PyFloat float_0_9]), 0%nat,
         [PyFloat (4 # 5); PyFloat float_0_9], (PyFloat float_0_9),
         [PyFloat (1 # 2); PyFloat (1 # 3)], (PyFloat (1 # 3)).
  repeat split.
Defined.

(** X7. A training run that returns a history without validation figures
    makes the evaluation fail after the training was done: [KeyError] when
    ["val_accuracy"] (or, failing that, ["val_loss"]) is missing,
    [IndexError] when its list is empty, as after a run of zero epochs.
    The failed evaluation is recorded and the world is the one the
    training left. *)
Theorem evaluation_needs_validation_history {W : Type} (env : Env W)
    (cfg : Config) (n : string) (b : Z) (r : pyvalue) (e : Z) (s : St W)
    (h : History) (w : W) (x : exn) :
  model_fit env b r e (log_dir cfg n) (world s) = (Ok h, w) ->
  ((forall l, ~ In ("val_accuracy", l) h) /\ x = KeyError "val_accuracy") \/
  (py_getitem "val_accuracy" h = Ok [] /\ x = IndexError) \/
  (exists la acc,
     py_getitem "val_accuracy" h = Ok la /\ py_last la = Ok acc /\
     (((forall l, ~ In ("val_loss", l) h) /\ x = KeyError "val_loss") \/
      (py_getitem "val_loss" h = Ok [] /\ x = IndexError))) ->
  CreateMetrics env cfg n b r e (STUDY_DISPLAY_NAME cfg) s
  = (Raise x,
     record_call (Evaluate n b r e (STUDY_DISPLAY_NAME cfg)) (Failed x)
       (with_world w s)).
Proof.
  intros Hfit Hcase.
  unfold CreateMetrics, CreateMetrics_body, run_model_training, bind,
    lift, ret.
  rewrite last_segment_spec. cbv beta iota. fold (log_dir cfg n).
  rewrite Hfit.
  destruct Hcase as [[Hk ->]|[[Hk ->]|(la & acc & Hla & Hacc & Hcase)]].
  - now rewrite (py_getitem_missing _ _ Hk).
  - now rewrite Hk.
  - rewrite Hla, Hacc. destruct Hcase as [[Hk ->]|[Hk ->]].
    + now rewrite (py_getitem_missing _ _ Hk).
    + now rewrite Hk.
Qed.

Lemma evaluation_needs_validation_history_witness :
  CreateMetrics
    (scripted (study 1 all_pending usual_params (fun _ _ => Ok [])))
    notebook_config (trial_name_of 1) 32 (PyFloat float_0_001) 0
    (STUDY_DISPLAY_NAME notebook_config) (initial_state 0%nat)
  = (Raise (KeyError "val_accuracy"),
     record_call (Evaluate (trial_name_of 1) 32 (PyFloat float_0_001) 0
                    (STUDY_DISPLAY_NAME notebook_config))
       (Failed (KeyError "val_accuracy"))
       (with_world 0%nat (initial_state 0%nat))).
Proof.
  apply (evaluation_needs_validation_history
           (scripted (study 1 all_pending usual_params (fun _ _ => Ok [])))
           notebook_config (trial_name_of 1) 32 (PyFloat float_0_001) 0
           (initial_state 0%nat) [] 0%nat (KeyError "val_accuracy")).
  - reflexivity.
  - left. split; [intros l H; destruct H|reflexivity].
Defined.

(** ** Batches and trial numbers *)

Section Batches.

Context {W : Type} (env : Env W) (cfg : Config).

Lemma count_block_fetch (n : string) (blk : list entry) :
  trial_block cfg n blk -> count is_fetch blk = 1%nat.
Proof. intros H. destruct H; reflexivity. Qed.

(** A batch that is gone through without an exception: every trial was
    fetched, and [trial_id] is the last segment of the last trial's name. *)
Lemma for_each_fetches (trials : list Trial) :
  forall (s s' : St W),
    for_each (process_trial env cfg) trials s = (Ok tt, s') ->
    (exists added,
       trace s' = trace s ++ added /\
       count is_fetch added = List.length trials) /\
    (forall t, py_last trials = Ok t ->
               trial_id s' = PyStr (last_segment (name t))).
Proof.
  induction trials as [|x rest IH]; intros s s' H.
  - injection H as <-. split; [|intros t Ht; discriminate Ht].
    exists []. split; [now rewrite app_nil_r|reflexivity].
  - simpl in H. unfold bind in H.
    destruct (process_trial_shape env cfg x s) as (blk & E & B & Hid).
    destruct (process_trial env cfg x s) as [[[]|e] s1];
      [|discriminate H].
    simpl in E, Hid.
    destruct (IH s1 s' H) as [(added & E' & Hc) Hlast]. split.
    + exists (blk ++ added). split; [now rewrite E', E, app_assoc|].
      rewrite count_app, (count_block_fetch _ _ B), Hc. reflexivity.
    + intros t Ht. destruct rest as [|y rest].
      * injection Ht as <-. injection H as <-. exact Hid.
      * apply Hlast. exact Ht.
Qed.

End Batches.

Lemma loop_body_leaves_last_trial_id {W : Type} (env : Env W) (cfg : Config)
    (s s' : St W) (trials : list Trial) (w : W) (t : Trial) :
  suggest_trials env (STUDY_ID cfg) (suggestion_count_per_request cfg)
    (client_id cfg) (world s) = (Ok trials, w) ->
  loop_body env cfg s = (Ok tt, s') ->
  py_last trials = Ok t ->
  trial_id s' = PyStr (last_segment (name t)).
Proof.
  intros Hsug Hbody Hlast.
  unfold loop_body, bind, remote in Hbody. rewrite Hsug in Hbody.
  simpl in Hbody.
  now apply (for_each_fetches env cfg trials _ _ Hbody).
Qed.

(** X8. The ceiling is looked at between batches only: when a suggestion
    request returns several trials and none of their calls raises, every
    trial of the batch is fetched (and, unless terminal, processed) before
    the loop test is evaluated again, and the test then sees the last
    segment of the name of the last trial of the batch. *)
Theorem batch_is_processed_whole {W : Type} (env : Env W) (cfg : Config)
    (s s' : St W) (trials : list Trial) (w : W) (t : Trial) :
  suggest_trials env (STUDY_ID cfg) (suggestion_count_per_request cfg)
    (client_id cfg) (world s) = (Ok trials, w) ->
  loop_body env cfg s = (Ok tt, s') ->
  py_last trials = Ok t ->
  trial_id s' = PyStr (last_segment (name t)) /\
  exists added,
    trace s'
    = trace s
      ++ (SuggestTrials (STUDY_ID cfg) (suggestion_count_per_request cfg)
            (client_id cfg), Returned) :: added /\
    count is_fetch added = List.length trials.
Proof.
  intros Hsug Hbody Hlast.
  unfold loop_body, bind, remote in Hbody. rewrite Hsug in Hbody.
  simpl in Hbody.
  destruct (for_each_fetches env cfg trials _ _ Hbody)
    as [(added & E & Hc) Hid].
  split; [now apply Hid|].
  exists added. split; [|exact Hc].
  rewrite E. simpl. now rewrite <- app_assoc.
Qed.

Lemma batch_is_processed_whole_witness :
  let s' := snd (loop_body (scripted paired_study) notebook_config
                   (initial_state 0%nat)) in
  let t1 := {| name := trial_name_of 1; state := "PENDING";
               parameters := usual_params 1 |} in
  let t2 := {| name := trial_name_of 2; state := "PENDING";
               parameters := usual_params 2 |} in
  trial_id s' = PyStr (last_segment (name t2)) /\
  exists added,
    trace s'
    = trace (initial_state 0%nat)
      ++ (SuggestTrials (STUDY_ID notebook_config)
            (suggestion_count_per_request notebook_config)
            (client_id notebook_config), Returned) :: added /\
    count is_fetch added = List.length [t1; t2].
Proof.
  intros s' t1 t2.
  refine (batch_is_processed_whole (scripted paired_study) notebook_config
            (initial_state 0%nat) s' [t1; t2] 1%nat t2 _ _ _).
  - vm_compute. reflexivity.
  - vm_compute. reflexivity.
  - reflexivity.
Defined.

Lemma trial_number_error (n : string) :
  (forall k, trial_number n <> Ok k) ->
  int_of_string (last_segment n) = Raise ValueError.
Proof.
  intros H. rewrite trial_number_last_segment in H.
  unfold int_of_string in *.
  destruct (match strip (list_ascii_of_string (last_segment n)) with
            | [] => None
            | c :: r =>
                if Ascii.eqb c "-" then option_map Z.opp (digits 0 false r)
                else if Ascii.eqb c "+" then digits 0 false r
                else digits 0 false (c :: r)
            end) as [z|]; [|reflexivity].
  exfalso. now apply (H z).
Qed.

(** X9. When the name of the last trial of a batch does not end in a
    decimal integer, the batch is still processed in full; the loop then
    ends with [ValueError] at the next loop test, in the state the batch
    left, with all its evaluations, reports and completions made. *)
Theorem opaque_trial_name_ends_the_run {W : Type} (env : Env W)
    (cfg : Config) (s s' : St W) (v : Z) (trials : list Trial) (w : W)
    (t : Trial) (fuel : nat) :
  py_int (trial_id s) = Ok v ->
  v < max_trial_id_to_stop cfg ->
  suggest_trials env (STUDY_ID cfg) (suggestion_count_per_request cfg)
    (client_id cfg) (world s) = (Ok trials, w) ->
  loop_body env cfg s = (Ok tt, s') ->
  py_last trials = Ok t ->
  (forall k, trial_number (name t) <> Ok k) ->
  trial_loop env cfg (S (S fuel)) s = (Finished (Raise ValueError), s').
Proof.
  intros Hv Hlt Hsug Hbody Hlast Hnum.
  pose proof (loop_body_leaves_last_trial_id env cfg s s' trials w t
                Hsug Hbody Hlast) as Hid.
  change (trial_loop env cfg (S (S fuel)) s) with
    (match py_int (trial_id s) with
     | Raise e => (Finished (Raise e), s)
     | Ok v0 =>
         if v0 <? max_trial_id_to_stop cfg then
           match loop_body env cfg s with
           | (Ok _, s1) => trial_loop env cfg (S fuel) s1
           | (Raise e, s1) => (Finished (Raise e), s1)
           end
         else (Finished (Ok tt), s)
     end).
  rewrite Hv. destruct (Z.ltb_spec v (max_trial_id_to_stop cfg)); [|lia].
  rewrite Hbody. simpl. rewrite Hid. simpl.
  now rewrite (trial_number_error _ Hnum).
Qed.

Lemma opaque_trial_name_ends_the_run_witness :
  trial_loop (scripted opaque_study) notebook_config 2 (initial_state 0%nat)
  = (Finished (Raise ValueError),
     snd (loop_body (scripted opaque_study) notebook_config
            (initial_state 0%nat))) /\
  count is_complete
    (trace (snd (loop_body (scripted opaque_study) notebook_config
                   (initial_state 0%nat)))) = 1%nat.
Proof.
  split; [|reflexivity].
  apply (opaque_trial_name_ends_the_run (scripted opaque_study)
           notebook_config (initial_state 0%nat)
           (snd (loop_body (scripted opaque_study) notebook_config
                   (initial_state 0%nat)))
           0 [opaque_trial] 1%nat opaque_trial 0%nat).
  - reflexivity.
  - reflexivity.
  - reflexivity.
  - reflexivity.
  - reflexivity.
  - intros k H. discriminate H.
Defined.

(** ** Trial names of the service's format *)

Lemma split_without_separator (sep : ascii) (s : string) :
  (forall c, In c (list_ascii_of_string s) -> c <> sep) ->
  split sep s = [s].
Proof.
  induction s as [|c r IH]; intros H; simpl; [reflexivity|].
  destruct (Ascii.eqb_spec c sep) as [->|_].
  - exfalso. apply (H sep); [now left|reflexivity].
  - rewrite IH; [reflexivity|]. intros c' Hin. apply H. now right.
Qed.

Lemma py_last_cons {A : Type} (x : A) (l : list A) :
  l <> [] -> py_last (x :: l) = py_last l.
Proof. destruct l; [contradiction|reflexivity]. Qed.

Lemma split_after_separator (sep : ascii) (p seg : string) :
  exists h t,
    split sep (p ++ String sep seg) = h :: t /\ t <> [] /\
    py_last t = py_last (split sep seg).
Proof.
  induction p as [|c p IH]; simpl.
  - rewrite Ascii.eqb_refl. exists EmptyString, (split sep seg).
    repeat split. apply split_nonempty.
  - destruct IH as (h & t & -> & Ht & Hlast).
    destruct (Ascii.eqb c sep).
    + exists EmptyString, (h :: t). repeat split; [discriminate|].
      now rewrite py_last_cons.
    + exists (String c h), t. now repeat split.
Qed.

Lemma last_segment_of_path (p seg : string) :
  (forall c, In c (list_ascii_of_string seg) -> c <> "/"%char) ->
  last_segment (p ++ String "/" seg) = seg.
Proof.
  intros H. unfold last_segment.
  destruct (split_after_separator "/" p seg) as (h & t & -> & Ht & Hlast).
  rewrite py_last_cons, Hlast by exact Ht.
  now rewrite split_without_separator.
Qed.

Lemma uint_chars_are_digits (d : Decimal.uint) :
  Forall (fun c => is_digit c = true)
         (list_ascii_of_string (NilEmpty.string_of_uint d)).
Proof. induction d; simpl; constructor; auto. Qed.

Lemma lstrip_no_space (l : list ascii) :
  Forall (fun c => is_space c = false) l -> lstrip l = l.
Proof. intros H. destruct H as [|c l Hc _]; simpl; [|rewrite Hc]; reflexivity. Qed.

Lemma strip_no_space (l : list ascii) :
  Forall (fun c => is_space c = false) l -> strip l = l.
Proof.
  intros H. unfold strip. rewrite (lstrip_no_space l H).
  rewrite lstrip_no_space; [apply rev_involutive|].
  apply Forall_rev. exact H.
Qed.

Lemma digit_facts (c : ascii) :
  is_digit c = true ->
  is_space c = false /\ c <> "/"%char /\
  Ascii.eqb c "-" = false /\ Ascii.eqb c "+" = false.
Proof.
  unfold is_digit, is_space. intros H.
  apply andb_prop in H as [H1 H2].
  apply Z.leb_le in H1. apply Z.leb_le in H2.
  repeat split.
  - apply orb_false_iff. split.
    + apply andb_false_iff. right. apply Z.leb_gt. lia.
    + apply Z.eqb_neq. lia.
  - intros ->. simpl in H1. lia.
  - apply Ascii.eqb_neq. intros ->. simpl in H1. lia.
  - apply Ascii.eqb_neq. intros ->. simpl in H1. lia.
Qed.

Lemma digits_step (c : ascii) (acc : Z) (r : list ascii) :
  is_digit c = true ->
  digits acc true (c :: r) = digits (10 * acc + digit_value c) true r.
Proof. intros H. simpl. now rewrite H. Qed.

Lemma digits_of_uint (d : Decimal.uint) :
  forall a : nat,
    digits (Z.of_nat a) true
           (list_ascii_of_string (NilEmpty.string_of_uint d))
    = Some (Z.of_nat (Nat.of_uint_acc d a)).
Proof.
  induction d; intros a; [reflexivity| | | | | | | | | |];
    cbn [NilEmpty.string_of_uint list_ascii_of_string Nat.of_uint_acc];
    rewrite digits_step by reflexivity;
    rewrite <- IHd; f_equal;
    match goal with
    | |- context [digit_value ?c] =>
        let v := eval vm_compute in (digit_value c) in
        change (digit_value c) with v
    end;
    rewrite Nat.tail_mul_spec; lia.
Qed.

Lemma digits_first (d : Decimal.uint) (acc : Z) :
  d <> Decimal.Nil ->
  digits acc false (list_ascii_of_string (NilEmpty.string_of_uint d))
  = digits acc true (list_ascii_of_string (NilEmpty.string_of_uint d)).
Proof. intros H. destruct d; [contradiction|reflexivity..]. Qed.

Lemma to_uint_not_nil (n : nat) : Nat.to_uint n <> Decimal.Nil.
Proof.
  rewrite <- (DecimalNat.Unsigned.of_to n) at 1.
  rewrite DecimalNat.Unsigned.to_of. unfold Decimal.unorm.
  destruct (Decimal.nzhead (Nat.to_uint n)); discriminate.
Qed.

(** [int(str(n)) = n] for every natural number. *)
Lemma int_of_string_py_str_nat (n : nat) :
  int_of_string (py_str_nat n) = Ok (Z.of_nat n).
Proof.
  unfold int_of_string, py_str_nat.
  pose proof (uint_chars_are_digits (Nat.to_uint n)) as Hd.
  rewrite strip_no_space
    by (eapply Forall_impl; [|exact Hd]; intros c Hc; apply digit_facts, Hc).
  pose proof (to_uint_not_nil n) as Hnil.
  pose proof (digits_first (Nat.to_uint n) 0 Hnil) as Hfirst.
  pose proof (digits_of_uint (Nat.to_uint n) 0) as Hval.
  destruct (list_ascii_of_string (NilEmpty.string_of_uint (Nat.to_uint n)))
    as [|c r] eqn:E.
  - destruct (Nat.to_uint n); [contradiction|discriminate E..].
  - try rewrite E in Hfirst. try rewrite E in Hval.
    apply Forall_inv in Hd. destruct (digit_facts c Hd) as (_ & _ & -> & ->).
    rewrite Hfirst. change (Z.of_nat 0) with 0 in Hval. rewrite Hval.
    change (Nat.of_uint_acc (Nat.to_uint n) 0)
      with (Nat.of_uint (Nat.to_uint n)).
    now rewrite DecimalNat.Unsigned.of_to.
Qed.


(** ** Strings *)

Lemma replace_hyphen_chars (s : string) :
  list_ascii_of_string (replace_from 0 "-" EmptyString s)
  = filter (fun c => negb (Ascii.eqb "-" c)) (list_ascii_of_string s).
Proof.
  induction s as [|c r IH]; [reflexivity|].
  cbn [replace_from starts_with list_ascii_of_string filter String.length].
  rewrite andb_true_r. destruct (Ascii.eqb "-" c); simpl.
  - exact IH.
  - now rewrite IH.
Qed.

Lemma chars_app (a b : string) :
  list_ascii_of_string (a ++ b)
  = list_ascii_of_string a ++ list_ascii_of_string b.
Proof. induction a as [|c a IH]; simpl; [reflexivity|now rewrite IH]. Qed.

(** X11. The study's display name keeps the characters of the project id
    in order, except that every hyphen is dropped; with a timestamp free
    of hyphens the whole name has none. *)
Theorem study_display_name_has_no_hyphen (PROJECT_ID timestamp : string) :
  list_ascii_of_string (study_display_name PROJECT_ID timestamp)
  = filter (fun c => negb (Ascii.eqb "-" c)) (list_ascii_of_string PROJECT_ID)
    ++ list_ascii_of_string ("_study_" ++ timestamp) /\
  (~ In "-"%char (list_ascii_of_string timestamp) ->
   ~ In "-"%char
        (list_ascii_of_string (study_display_name PROJECT_ID timestamp))).
Proof.
  assert (E : list_ascii_of_string (study_display_name PROJECT_ID timestamp)
              = filter (fun c => negb (Ascii.eqb "-" c))
                  (list_ascii_of_string PROJECT_ID)
                ++ list_ascii_of_string ("_study_" ++ timestamp)).
  { unfold study_display_name, py_replace.
    now rewrite chars_app, replace_hyphen_chars. }
  split; [exact E|].
  intros Hts Hin. rewrite E in Hin. apply in_app_or in Hin as [Hin|Hin].
  - apply filter_In in Hin as [_ Hc]. now rewrite Ascii.eqb_refl in Hc.
  - simpl in Hin.
    repeat (destruct Hin as [Hin|Hin]; [discriminate Hin|]).
    now apply Hts.
Qed.

Lemma study_display_name_has_no_hyphen_witness :
  study_display_name "my-native-project" "20211201_120000"
  = "mynativeproject_study_20211201_120000" /\
  ~ In "-"%char
       (list_ascii_of_string
          (study_display_name "my-native-project" "20211201_120000")).
Proof.
  split; [reflexivity|].
  apply (proj2 (study_display_name_has_no_hyphen "my-native-project"
                  "20211201_120000")).
  simpl. intros H.
  repeat (destruct H as [H|H]; [discriminate H|]). exact H.
Defined.

Lemma split_head (sep : ascii) (s : string) :
  exists h t,
    split sep s = h :: t /\
    ~ In sep (list_ascii_of_string h) /\
    (forall u d,
       s = (u ++ String sep d)%string ->
       ~ In sep (list_ascii_of_string u) -> h = u).
Proof.
  induction s as [|c r IH]; simpl.
  - exists EmptyString, []. repeat split; [intros []|].
    intros u d E _. destruct u; discriminate E.
  - destruct IH as (h & t & -> & Hh & Hu).
    destruct (Ascii.eqb_spec c sep) as [->|Hne].
    + exists EmptyString, (h :: t). repeat split; [intros []|].
      intros u d E Hnot. destruct u as [|c' u]; [reflexivity|].
      injection E as <- _. exfalso. apply Hnot. now left.
    + exists (String c h), t. repeat split.
      * intros [->|Hin]; [now apply Hne|now apply Hh].
      * intros u d E Hnot. destruct u as [|c' u].
        -- injection E as -> _. now contradiction Hne.
        -- injection E as <- E. f_equal. apply (Hu u d E).
           intros Hin. apply Hnot. now right.
Qed.



(** ** Lists and dicts *)

Lemma py_index_absent (x : string) (l : list string) :
  ~ In x l -> py_index x l = Raise ValueError.
Proof.
  induction l as [|y r IH]; intros H; simpl; [reflexivity|].
  destruct (String.eqb_spec y x) as [->|_].
  - exfalso. apply H. now left.
  - rewrite IH; [reflexivity|]. intros Hin. apply H. now right.
Qed.

Lemma py_index_first (x : string) (pre post : list string) :
  ~ In x pre -> py_index x (pre ++ x :: post) = Ok (List.length pre).
Proof.
  induction pre as [|y pre IH]; intros H; simpl.
  - now rewrite String.eqb_refl.
  - destruct (String.eqb_spec y x) as [->|_].
    + exfalso. apply H. now left.
    + rewrite IH; [reflexivity|]. intros Hin. apply H. now right.
Qed.

Lemma first_occurrence (x : string) (l : list string) :
  In x l -> exists pre post, l = pre ++ x :: post /\ ~ In x pre.
Proof.
  induction l as [|y r IH]; intros H; [destruct H|].
  destruct (String.eqb_spec y x) as [->|Hne].
  - exists [], r. split; [reflexivity|intros []].
  - destruct H as [->|H]; [contradiction|].
    destruct (IH H) as (pre & post & -> & Hpre).
    exists (y :: pre), post. split; [reflexivity|].
    intros [->|Hin]; [now apply Hne|now apply Hpre].
Qed.

Lemma py_insert_after (x v : string) (pre post : list string) :
  py_insert (List.length pre + 1) v (pre ++ x :: post)
  = pre ++ x :: v :: post.
Proof. induction pre as [|y pre IH]; simpl; [reflexivity|now rewrite IH]. Qed.

(** The comprehension goes through exactly on lists of even length. *)
Lemma pairs_dict_outcome (n : nat) :
  forall (l : list string) (acc : list (string * string)),
    (List.length l <= n)%nat ->
    if Nat.even (List.length l)
    then exists d, pairs_dict l acc = Ok d
    else pairs_dict l acc = Raise IndexError.
Proof.
  induction n as [|n IH]; intros l acc Hn.
  - destruct l; [now exists acc|simpl in Hn; lia].
  - destruct l as [|k [|v rest]]; [now exists acc|reflexivity|].
    cbn [pairs_dict List.length Nat.even]. apply IH. simpl in Hn. lia.
Qed.

Lemma py_getitem_dict_set_same {A : Type} (k : string) (v : A)
    (d : list (string * A)) :
  py_getitem k (dict_set k v d) = Ok v.
Proof.
  induction d as [|[k' v'] d IH]; simpl.
  - now rewrite String.eqb_refl.
  - destruct (String.eqb k' k) eqn:E; simpl; rewrite E; [reflexivity|exact IH].
Qed.

Lemma py_getitem_dict_set_other {A : Type} (k k0 : string) (v : A)
    (d : list (string * A)) :
  k0 <> k -> py_getitem k (dict_set k0 v d) = py_getitem k d.
Proof.
  intros Hne. induction d as [|[k' v'] d IH]; simpl.
  - destruct (String.eqb_spec k0 k); [contradiction|reflexivity].
  - destruct (String.eqb_spec k' k0) as [->|Hk]; simpl.
    + destruct (String.eqb_spec k0 k); [contradiction|reflexivity].
    + destruct (String.eqb k' k); [reflexivity|exact IH].
Qed.

Lemma pairs_dict_lookup (n : nat) (k : string) :
  forall (l : list string) (acc d : list (string * string)),
    (List.length l <= n)%nat ->
    pairs_dict l acc = Ok d ->
    py_getitem k d = match last_pair k l with
                     | Some v => Ok v
                     | None => py_getitem k acc
                     end.
Proof.
  induction n as [|n IH]; intros l acc d Hn H.
  - destruct l; [|simpl in Hn; lia]. injection H as <-. reflexivity.
  - destruct l as [|a [|b rest]];
      [injection H as <-; reflexivity|discriminate H|].
    cbn [pairs_dict] in H. cbn [last_pair].
    rewrite (IH rest _ d ltac:(simpl in Hn; lia) H).
    destruct (last_pair k rest); [reflexivity|].
    destruct (String.eqb_spec a k) as [->|Hne].
    + apply py_getitem_dict_set_same.
    + now apply py_getitem_dict_set_other.
Qed.

Lemma last_pair_app (k : string) (pre rest : list string) (n : nat) :
  (List.length pre <= n)%nat ->
  Nat.even (List.length pre) = true ->
  last_pair k (pre ++ rest)
  = match last_pair k rest with
    | Some v => Some v
    | None => last_pair k pre
    end.
Proof.
  revert pre. induction n as [|n IH]; intros pre Hn He.
  - destruct pre; [|simpl in Hn; lia]. simpl. now destruct (last_pair k rest).
  - destruct pre as [|a [|b pre]];
      [simpl; now destruct (last_pair k rest)|discriminate He|].
    cbn [app last_pair].
    rewrite (IH pre ltac:(simpl in Hn; lia) He).
    destruct (last_pair k rest); reflexivity.
Qed.

(** X13. The dict of arguments is built exactly when the argument list
    contains ["--multi-node"] and has an odd number of elements: without
    the flag [index] raises [ValueError]; with the flag and an even number
    of elements the comprehension runs off the end of the list and raises
    [IndexError]. *)
Theorem args_dict_outcome (args : list string) :
  (~ In "--multi-node" args -> args_dict args = Raise ValueError) /\
  (In "--multi-node" args -> Nat.even (List.length args) = true ->
   args_dict args = Raise IndexError) /\
  (In "--multi-node" args -> Nat.even (List.length args) = false ->
   exists d, args_dict args = Ok d).
Proof.
  unfold args_dict. split; [|split].
  - intros H. now rewrite py_index_absent.
  - intros H He. destruct (first_occurrence _ _ H) as (pre & post & -> & Hpre).
    rewrite (py_index_first _ _ _ Hpre), py_insert_after.
    pose proof (pairs_dict_outcome _ (pre ++ "--multi-node" :: "True" :: post)
                  [] (le_n _)) as Hout.
    replace (Nat.even (List.length
               (pre ++ "--multi-node" :: "True" :: post))) with false in Hout;
      [exact Hout|].
    rewrite length_app in *. cbn [List.length] in *.
    rewrite Nat.add_succ_r, Nat.even_succ, <- Nat.negb_even in He.
    rewrite !Nat.add_succ_r, Nat.even_succ, <- Nat.negb_even,
      Nat.even_succ, <- Nat.negb_even.
    now destruct (Nat.even (List.length pre + List.length post)).
  - intros H He. destruct (first_occurrence _ _ H) as (pre & post & -> & Hpre).
    rewrite (py_index_first _ _ _ Hpre), py_insert_after.
    pose proof (pairs_dict_outcome _ (pre ++ "--multi-node" :: "True" :: post)
                  [] (le_n _)) as Hout.
    replace (Nat.even (List.length
               (pre ++ "--multi-node" :: "True" :: post))) with true in Hout;
      [exact Hout|].
    rewrite length_app in *. cbn [List.length] in *.
    rewrite Nat.add_succ_r, Nat.even_succ, <- Nat.negb_even in He.
    rewrite !Nat.add_succ_r, Nat.even_succ, <- Nat.negb_even,
      Nat.even_succ, <- Nat.negb_even.
    now destruct (Nat.even (List.length pre + List.length post)).
Qed.

Lemma args_dict_outcome_witness :
  args_dict (HPT_CMDARGS "bkt" "alice" 17) = Raise ValueError /\
  args_dict (py_insert 5 "True" (CMDARGS "bkt" "alice" 17))
  = Raise IndexError /\
  exists d, args_dict (CMDARGS "bkt" "alice" 17) = Ok d.
Proof.
  split; [|split].
  - apply (proj1 (args_dict_outcome (HPT_CMDARGS "bkt" "alice" 17))).
    simpl. intros H.
    repeat (destruct H as [H|H]; [discriminate H|]). exact H.
  - apply (proj1 (proj2 (args_dict_outcome
                           (py_insert 5 "True" (CMDARGS "bkt" "alice" 17))))).
    + simpl. tauto.
    + reflexivity.
  - apply (proj2 (proj2 (args_dict_outcome (CMDARGS "bkt" "alice" 17)))).
    + simpl. tauto.
    + reflexivity.
Defined.

(** X14. In the dict of arguments every key is mapped to the element that
    follows its last occurrence at an even position of the list in which
    ["True"] has been put after the first ["--multi-node"].  When the
    elements before the flag come in pairs, the flag itself is mapped to
    ["True"] (unless it comes again as a later key), and a key set before
    the flag and not again after it keeps the value that followed it. *)
Theorem args_dict_lookup (pre post : list string)
    (d : list (string * string)) (k : string) :
  ~ In "--multi-node" pre ->
  args_dict (pre ++ "--multi-node" :: post) = Ok d ->
  py_getitem k d
  = match last_pair k (pre ++ "--multi-node" :: "True" :: post) with
    | Some v => Ok v
    | None => Raise (KeyError k)
    end /\
  (Nat.even (List.length pre) = true ->
   (last_pair "--multi-node" post = None ->
    py_getitem "--multi-node" d = Ok "True") /\
   (forall v, k <> "--multi-node" -> last_pair k post = None ->
              last_pair k pre = Some v -> py_getitem k d = Ok v)).
Proof.
  intros Hpre H. unfold args_dict in H.
  rewrite (py_index_first _ _ _ Hpre), py_insert_after in H.
  assert (Hall : forall k0,
            py_getitem k0 d
            = match last_pair k0 (pre ++ "--multi-node" :: "True" :: post)
              with
              | Some v => Ok v
              | None => Raise (KeyError k0)
              end).
  { intros k0. now rewrite (pairs_dict_lookup _ k0 _ [] d (le_n _) H). }
  split; [apply Hall|]. intros He. split.
  - intros Hpost. rewrite Hall, (last_pair_app _ _ _ _ (le_n _) He).
    cbn [last_pair]. rewrite Hpost. reflexivity.
  - intros v Hk Hpost Hv.
    rewrite Hall, (last_pair_app _ _ _ _ (le_n _) He).
    cbn [last_pair]. rewrite Hpost.
    destruct (String.eqb_spec "--multi-node" k) as [E|_];
      [now contradiction Hk|].
    now rewrite Hv.
Qed.

Lemma args_dict_lookup_witness :
  exists d,
    args_dict (CMDARGS "bkt" "alice" 17) = Ok d /\
    py_getitem "--multi-node" d = Ok "True" /\
    py_getitem "--epochs" d = Ok "2".
Proof.
  assert (H : exists d, args_dict (CMDARGS "bkt" "alice" 17) = Ok d)
    by (eexists; reflexivity).
  destruct H as [d H]. exists d. split; [exact H|].
  destruct (args_dict_lookup
              ["--epochs"; py_str_nat 2; "--batch-size"; py_str_nat 32]
              (skipn 5 (CMDARGS "bkt" "alice" 17)) d "--epochs")
    as [_ Hd].
  - simpl. intros Hin.
    repeat (destruct Hin as [Hin|Hin]; [discriminate Hin|]). exact Hin.
  - exact H.
  - destruct (Hd eq_refl) as [Hflag Hkey]. split.
    + apply Hflag. reflexivity.
    + apply Hkey; [discriminate|reflexivity|reflexivity].
Defined.

Lemma py_getitem_no_key {A : Type} (k : string) (d : list (string * A)) :
  ~ In k (map fst d) -> py_getitem k d = Raise (KeyError k).
Proof.
  intros H. apply py_getitem_missing. intros v Hin. apply H.
  now apply (in_map fst) in Hin.
Qed.

(** X15. In [{**d1, **d2}] a key of [d2] has the value [d2] gives it, and
    any other key has the value [d1] gives it, if any ([d2] being a dict,
    its keys are distinct). *)
Theorem dict_merge_lookup {A : Type} (d1 d2 : list (string * A)) (k : string) :
  NoDup (map fst d2) ->
  py_getitem k (dict_merge d1 d2)
  = match py_getitem k d2 with
    | Ok v => Ok v
    | Raise _ => py_getitem k d1
    end.
Proof.
  unfold dict_merge. revert d1.
  induction d2 as [|[k2 v2] d2 IH]; intros d1 Hnd; [reflexivity|].
  inversion Hnd as [|? ? Hnotin Hnd']; subst.
  cbn [fold_left fst snd]. rewrite (IH _ Hnd'). cbn [py_getitem].
  destruct (String.eqb_spec k2 k) as [->|Hne].
  - rewrite (py_getitem_no_key _ _ Hnotin).
    apply py_getitem_dict_set_same.
  - destruct (py_getitem k d2); [reflexivity|].
    now apply py_getitem_dict_set_other.
Qed.

Lemma dict_merge_lookup_witness :
  let d := [ ("--epochs", "2"); ("--batch-size", "32");
             ("--multi-node", "True");
             ("--gcs-workdir", GCS_WORKDIR "bkt" "alice" 17);
             ("--gcs-model-savedir",
              DISTRIB_GCS_MODEL_SAVEDIR "bkt" "alice" 17);
             ("--gcs-metrics-path",
              DISTRIB_GCS_METRICS_PATH "bkt" "alice" 17);
             ("--image-height", "96"); ("--image-width", "96");
             ("--ml-task", "patchcamelyon") ] in
  let p := [("model_display_name", MODEL_DISPLAY_NAME "alice" 17)] in
  args_dict (CMDARGS "bkt" "alice" 17) = Ok d /\
  py_getitem "model_display_name" (dict_merge p d)
  = Ok (MODEL_DISPLAY_NAME "alice" 17) /\
  py_getitem "--multi-node" (dict_merge p d) = Ok "True".
Proof.
  intros d p.
  assert (Hnd : NoDup (map fst d)).
  { repeat constructor; simpl; intros H;
      repeat (destruct H as [H|H]; [discriminate H|]); exact H. }
  split; [reflexivity|]. split.
  - rewrite (dict_merge_lookup p d "model_display_name" Hnd). reflexivity.
  - rewrite (dict_merge_lookup p d "--multi-node" Hnd). reflexivity.
Defined.

(** For every bucket, user and time stamp the cells that build
    [PARAMS] for the multi-node job raise no exception.  [PARAMS] has the
    model's display name first and then one entry per flag of [CMDARGS], in
    the order of the list, each with the argument that follows the flag
    and ["--multi-node"] with ["True"]. *)
Theorem PARAMS_of_multi_node_job (BUCKET_NAME USER : string) (ts : nat) :
  PARAMS BUCKET_NAME USER ts
  = Ok [ ("model_display_name", MODEL_DISPLAY_NAME USER ts);
         ("--epochs", py_str_nat 2);
         ("--batch-size", py_str_nat 32);
         ("--multi-node", "True");
         ("--gcs-workdir", GCS_WORKDIR BUCKET_NAME USER ts);
         ("--gcs-model-savedir",
          DISTRIB_GCS_MODEL_SAVEDIR BUCKET_NAME USER ts);
         ("--gcs-metrics-path",
          DISTRIB_GCS_METRICS_PATH BUCKET_NAME USER ts);
         ("--image-height", py_str_nat IMAGE_HEIGHT);
         ("--image-width", py_str_nat IMAGE_WIDTH);
         ("--ml-task", "patchcamelyon") ].
Proof. reflexivity. Qed.

(** ** The metrics file *)

Lemma sapp_assoc (a b c : string) : ((a ++ b) ++ c = a ++ (b ++ c))%string.
Proof. induction a as [|x a IH]; simpl; [reflexivity|now rewrite IH]. Qed.

Lemma starts_with_app (old s : string) : starts_with old (old ++ s) = true.
Proof.
  induction old as [|c old IH]; simpl; [reflexivity|].
  now rewrite Ascii.eqb_refl, IH.
Qed.

Lemma replace_from_skip (x old new s : string) :
  replace_from (String.length x) old new (x ++ s)
  = replace_from 0 old new s.
Proof. induction x as [|c x IH]; simpl; [reflexivity|exact IH]. Qed.

Lemma replace_from_occurrence (c : ascii) (old' new s : string) :
  replace_from 0 (String c old') new (String c old' ++ s)
  = (new ++ replace_from 0 (String c old') new s)%string.
Proof.
  cbn [append replace_from].
  change (String c (old' ++ s)) with (String c old' ++ s)%string.
  rewrite starts_with_app.
  replace (String.length (String c old') - 1)%nat with (String.length old')
    by (simpl; lia).
  now rewrite replace_from_skip.
Qed.

Lemma replace_from_no_occurrence (old new s : string) :
  occurs old s = false -> replace_from 0 old new s = s.
Proof.
  induction s as [|c r IH]; intros H; [reflexivity|].
  cbn [occurs] in H. apply orb_false_iff in H as [H1 H2].
  cbn [replace_from]. rewrite H1. now rewrite IH.
Qed.

(** X16. The metrics file that is read back after the multi-node job is
    [metrics/<ts>/metrics.json] under the job's work directory in the
    bucket, provided that ["/gcs/"] does not occur in the path after its
    own leading ["/gcs/"] (every occurrence would be replaced). *)
Theorem metrics_file_location (BUCKET_NAME USER : string) (ts : nat) :
  occurs "/gcs/"
    (BUCKET_NAME ++ "/" ++ MODEL_DISPLAY_NAME USER ts ++ "/metrics/"
     ++ py_str_nat ts ++ "/metrics.json") = false ->
  metrics_file BUCKET_NAME USER ts
  = (GCS_WORKDIR BUCKET_NAME USER ts ++ "/metrics/" ++ py_str_nat ts
     ++ "/metrics.json")%string.
Proof.
  intros H. unfold metrics_file, DISTRIB_GCS_METRICS_PATH, GCS_WORKDIR,
    py_replace.
  rewrite !sapp_assoc.
  rewrite (replace_from_occurrence "/" "gcs/" "gs://").
  rewrite (replace_from_no_occurrence _ _ _ H).
  reflexivity.
Qed.

Lemma metrics_file_location_witness :
  metrics_file "bkt" "alice" 17
  = "gs://bkt/alice-pcam_distrib_mw02-2-17/metrics/17/metrics.json".
Proof.
  rewrite (metrics_file_location "bkt" "alice" 17); reflexivity.
Defined.

(** ** The study configuration and the loop *)

Lemma py_int_integral_float (q : Q) (k : Z) :
  (q == inject_Z k)%Q -> py_int (PyFloat q) = Ok k.
Proof.
  unfold Qeq, inject_Z. simpl. intros H. rewrite Z.mul_1_r in H.
  rewrite H. now rewrite Z.quot_mul.
Qed.



Lemma param_value_last (id : string) (ps1 ps2 : list Param) (p : Param) :
  parameter_id p = id ->
  (forall p', In p' ps2 -> parameter_id p' <> id) ->
  param_value id (ps1 ++ p :: ps2) = Some (value p).
Proof.
  intros Hp Hnone.
  assert (H2 : param_value id ps2 = None).
  { induction ps2 as [|p' ps2 IH]; [reflexivity|]. simpl.
    rewrite IH by (intros x Hx; apply Hnone; now right).
    destruct (String.eqb_spec (parameter_id p') id) as [E|_];
      [|reflexivity].
    exfalso. apply (Hnone p'); [now left|exact E]. }
  induction ps1 as [|p1 ps1 IH]; simpl.
  - rewrite H2, Hp. now rewrite String.eqb_refl.
  - now rewrite IH.
Qed.

Lemma param_value_none (id : string) (ps : list Param) :
  (forall p, In p ps -> parameter_id p <> id) -> param_value id ps = None.
Proof.
  induction ps as [|p ps IH]; intros H; [reflexivity|]. simpl.
  rewrite IH by (intros x Hx; apply H; now right).
  destruct (String.eqb_spec (parameter_id p) id) as [E|_]; [|reflexivity].
  exfalso. apply (H p); [now left|exact E].
Qed.

(** X18. The parameter loop never fails and touches nothing but the two
    variables.  When a trial lists a parameter more than once, the last
    entry wins; a variable whose parameter the trial does not list keeps
    the value it had before the trial; entries with other identifiers are
    ignored. *)
Theorem parameter_loop_last_wins {W : Type} (ps : list Param) (s : St W) :
  fst (assign_parameters ps s) = Ok tt /\
  world (snd (assign_parameters ps s)) = world s /\
  trace (snd (assign_parameters ps s)) = trace s /\
  trial_id (snd (assign_parameters ps s)) = trial_id s /\
  (forall ps1 p ps2,
     ps = ps1 ++ p :: ps2 ->
     (forall p', In p' ps2 -> parameter_id p' <> parameter_id p) ->
     (parameter_id p = "batch_size" ->
      batch_size (snd (assign_parameters ps s)) = Some (value p)) /\
     (parameter_id p = "learning_rate" ->
      learning_rate (snd (assign_parameters ps s)) = Some (value p))) /\
  ((forall p, In p ps -> parameter_id p <> "batch_size") ->
   batch_size (snd (assign_parameters ps s)) = batch_size s) /\
  ((forall p, In p ps -> parameter_id p <> "learning_rate") ->
   learning_rate (snd (assign_parameters ps s)) = learning_rate s).
Proof.
  rewrite assign_parameters_spec. cbn [fst snd world trace trial_id
    batch_size learning_rate]. unfold assigned.
  repeat split.
  - intros E. subst ps.
    rewrite (param_value_last "batch_size" ps1 ps2 p E); [reflexivity|].
    now rewrite <- E.
  - intros E. subst ps.
    rewrite (param_value_last "learning_rate" ps1 ps2 p E); [reflexivity|].
    now rewrite <- E.
  - intros H. now rewrite (param_value_none _ _ H).
  - intros H. now rewrite (param_value_none _ _ H).
Qed.

Lemma parameter_loop_last_wins_witness :
  batch_size
    (snd (assign_parameters
            [ {| parameter_id := "batch_size"; value := PyFloat 16 |};
              {| parameter_id := "dropout"; value := PyFloat (1 # 5) |};
              {| parameter_id := "batch_size"; value := PyFloat 64 |} ]
            (initial_state 0%nat)))
  = Some (PyFloat 64) /\
  learning_rate
    (snd (assign_parameters
            [ {| parameter_id := "batch_size"; value := PyFloat 16 |};
              {| parameter_id := "dropout"; value := PyFloat (1 # 5) |};
              {| parameter_id := "batch_size"; value := PyFloat 64 |} ]
            (initial_state 0%nat)))
  = None.
Proof.
  pose proof (parameter_loop_last_wins
                [ {| parameter_id := "batch_size"; value := PyFloat 16 |};
                  {| parameter_id := "dropout"; value := PyFloat (1 # 5) |};
                  {| parameter_id := "batch_size"; value := PyFloat 64 |} ]
                (initial_state 0%nat))
    as (_ & _ & _ & _ & Hlast & _ & Hkeep).
  split.
  - apply (Hlast
             [ {| parameter_id := "batch_size"; value := PyFloat 16 |};
               {| parameter_id := "dropout"; value := PyFloat (1 # 5) |} ]
             {| parameter_id := "batch_size"; value := PyFloat 64 |} []
             eq_refl).
    + intros p' [].
    + reflexivity.
  - rewrite Hkeep; [reflexivity|].
    intros p [<-|[<-|[<-|[]]]]; discriminate.
Defined.
